(** * Aggregation and ranking reports (datafun-03-analytics)

    A shallow embedding of the report scripts [process_csv.py],
    [process_text.py] and [process_excel.py] and of the download script
    [get_excel.py]:

    - Python [str] values are sequences of Unicode code points ([pystr]);
    - Python [int] is [Z]; a Python [float] is an IEEE binary64 value
      ([SpecFloat.spec_float] at precision 53), with division and
      multiplication rounded to nearest, ties to even;
    - a [dict] / [Counter] is an association list kept in insertion order,
      which is the iteration order of a Python dictionary;
    - a function that logs and returns is a pair of its log and its value;
      the body of a [try] block is a computation in the [result] monad and
      the [except Exception] clause is the handler applied to it. *)

From Stdlib Require Import String Ascii.
From Stdlib Require Import List ZArith NArith QArith Bool Lia.
From Stdlib Require Import Permutation Sorted.
From Stdlib Require SpecFloat.
Import ListNotations.

Local Open Scope Z_scope.

(** ** Python strings *)

Definition pystr := list N.

(** A literal of the source, written as a Rocq string. *)
Definition lit (s : string) : pystr :=
  map N_of_ascii (list_ascii_of_string s).

Fixpoint pystr_eqb (a b : pystr) : bool :=
  match a, b with
  | [], [] => true
  | x :: a', y :: b' => N.eqb x y && pystr_eqb a' b'
  | _, _ => false
  end.

(** [str.isspace] on one code point: the white-space code points of
    CPython's Unicode database. *)
Definition isspace (c : N) : bool :=
  ((9 <=? c) && (c <=? 13) || (28 <=? c) && (c <=? 32)
   || (c =? 133) || (c =? 160) || (c =? 5760)
   || (8192 <=? c) && (c <=? 8202)
   || (c =? 8232) || (c =? 8233) || (c =? 8239) || (c =? 8287)
   || (c =? 12288))%N.

Fixpoint lstrip (s : pystr) : pystr :=
  match s with
  | [] => []
  | c :: s' => if isspace c then lstrip s' else s
  end.

Definition rstrip (s : pystr) : pystr := rev (lstrip (rev s)).

(** [s.strip()] *)
Definition strip (s : pystr) : pystr := rstrip (lstrip s).

(** The non-breaking space, ["\xa0"]. *)
Definition nbsp : N := 160%N.

(** [s.replace("\xa0", "")] *)
Definition remove_nbsp (s : pystr) : pystr :=
  filter (fun c => negb (N.eqb c nbsp)) s.

(** [" ".join(ls)] *)
Fixpoint join_space (ls : list pystr) : pystr :=
  match ls with
  | [] => []
  | [l] => l
  | l :: ls' => l ++ 32%N :: join_space ls'
  end.

(** ** Exceptions, logging and the [try] monad *)

Inductive exn : Type :=
| FileNotFoundError
| TypeError
| AttributeError
| IndexError
| ValueError
| ZeroDivisionError
| OverflowError.

Inductive result (A : Type) : Type :=
| Ok (a : A)
| Raise (e : exn).
Arguments Ok {A} a.
Arguments Raise {A} e.

Definition bind {A B : Type} (r : result A) (k : A -> result B) : result B :=
  match r with
  | Ok a => k a
  | Raise e => Raise e
  end.

Notation "x <- r ;; k" := (bind r (fun x => k))
  (at level 61, r at next level, right associativity).

(** ** Dictionaries in insertion order *)

Section PyDict.
Context {K V : Type}.
Variable keq : K -> K -> bool.

Definition dict := list (K * V).

(** [d.get(k)], [None] when the key is absent. *)
Fixpoint dict_get (d : dict) (k : K) : option V :=
  match d with
  | [] => None
  | (k', v) :: d' => if keq k' k then Some v else dict_get d' k
  end.

(** [k in d] *)
Definition dict_mem (d : dict) (k : K) : bool :=
  match dict_get d k with Some _ => true | None => false end.

(** [d[k] = v]: a present key keeps its position (and its key object),
    a new key is appended. *)
Fixpoint dict_set (d : dict) (k : K) (v : V) : dict :=
  match d with
  | [] => [(k, v)]
  | (k', v') :: d' =>
      if keq k' k then (k', v) :: d' else (k', v') :: dict_set d' k v
  end.

Definition dict_keys (d : dict) : list K := map fst d.
Definition dict_values (d : dict) : list V := map snd d.
End PyDict.

Arguments dict : clear implicits.

(** ** [collections.Counter] *)

Definition Counter := dict pystr Z.

(** [c[k]] on a Counter: a missing key counts 0. *)
Definition counter_getitem (c : Counter) (k : pystr) : Z :=
  match dict_get pystr_eqb c k with
  | Some n => n
  | None => 0
  end.

(** [c[k] += 1] *)
Definition counter_incr (c : Counter) (k : pystr) : Counter :=
  dict_set pystr_eqb c k (counter_getitem c k + 1).

(** [c.update(words)] on an iterable of keys. *)
Definition counter_update (c : Counter) (words : list pystr) : Counter :=
  fold_left counter_incr words c.

(** [sum(c.values())] *)
Definition sum_values (c : Counter) : Z :=
  fold_left Z.add (dict_values c) 0.

(** *** Ranking: [Counter.most_common]

    [most_common(n)] is [heapq.nlargest(n, items, key=count)]: nothing for
    [n <= 0], otherwise the first [n] items of
    [sorted(items, key=count, reverse=True)], a stable sort. *)

Fixpoint insert_desc (x : pystr * Z) (l : list (pystr * Z)) : list (pystr * Z) :=
  match l with
  | [] => [x]
  | y :: l' => if snd y <=? snd x then x :: l else y :: insert_desc x l'
  end.

(** [sorted(items, key=itemgetter(1), reverse=True)] *)
Definition sorted_desc (l : list (pystr * Z)) : list (pystr * Z) :=
  fold_right insert_desc [] l.

Definition most_common (c : Counter) (n : Z) : list (pystr * Z) :=
  if n <=? 0 then [] else firstn (Z.to_nat n) (sorted_desc c).

(** ** Logging *)

Inductive log_msg : Type :=
| MissingStateColumn (headers : list pystr)
    (* CSV missing 'State' column. Found headers: ... *)
| NoStateData                (* No state data found in CSV file. *)
| ErrorProcessingCSV (e : exn)   (* Error processing CSV file: e *)
| ProcessedCSV               (* Processed CSV file: ..., Statistics saved to: ... *)
| FewerLines (skip_lines : Z)
    (* File has fewer than skip_lines lines. Adjust the skip_lines value. *)
| ErrorProcessingText (e : exn)  (* Error processing text file: e *)
| ProcessedText              (* Processed text file: ..., Word counts saved to: ... *)
| MissingRequiredColumns     (* Missing required columns in Excel file. ... *)
| ErrorProcessingExcel (e : exn) (* Error processing Excel file: e *)
| ProcessedExcel.            (* Processed Excel file: ..., Statistics saved to: ... *)

Inductive log_entry : Type :=
| LogError (m : log_msg)
| LogInfo (m : log_msg).

(** What a function leaves behind: the lines it logged and its value. *)
Definition logged (A : Type) : Type := list log_entry * A.

(** [file_path.open('r')] on a file that may be missing. *)
Definition open_read {A : Type} (file : option A) : result A :=
  match file with
  | Some content => Ok content
  | None => Raise FileNotFoundError
  end.

(** ** process_csv.py *)

(** A CSV file as [csv.reader] yields it: one list of fields per record. *)
Definition csv_rows := list (list pystr).

(** The values of a row dictionary of [csv.DictReader]: a field, the
    [restval] [None] of a short row, or the surplus fields of a long row
    (stored under the [restkey] [None]). *)
Inductive csv_value : Type :=
| VNone
| VStr (s : pystr)
| VRest (l : list pystr).

Definition okey_eqb (a b : option pystr) : bool :=
  match a, b with
  | Some x, Some y => pystr_eqb x y
  | None, None => true
  | _, _ => false
  end.

Definition row_dict := dict (option pystr) csv_value.

(** [dict(zip(fieldnames, row))], a repeated field name keeps the last
    value. *)
Fixpoint dict_of_zip (d : row_dict) (ks vs : list pystr) : row_dict :=
  match ks, vs with
  | k :: ks', v :: vs' => dict_of_zip (dict_set okey_eqb d (Some k) (VStr v)) ks' vs'
  | _, _ => d
  end.

(** One row of [DictReader.__next__]. *)
Definition dictreader_row (fieldnames row : list pystr) : row_dict :=
  let d := dict_of_zip [] fieldnames row in
  let lf := length fieldnames in
  let lr := length row in
  if (lf <? lr)%nat then dict_set okey_eqb d None (VRest (skipn lf row))
  else if (lr <? lf)%nat then
    fold_left (fun d key => dict_set okey_eqb d (Some key) VNone)
              (skipn lr fieldnames) d
  else d.

(** [col.strip().replace("\xa0", "")] *)
Definition normalize (col : pystr) : pystr := remove_nbsp (strip col).

(** [csv_reader.fieldnames]: the first record, [None] for an empty file;
    the list comprehension over it raises [TypeError] on [None]. *)
Definition normalized_fieldnames (rows : csv_rows) : result (list pystr) :=
  match rows with
  | [] => Raise TypeError
  | header :: _ => Ok (map normalize header)
  end.

(** [x in l] for a list of strings. *)
Definition str_in (x : pystr) (l : list pystr) : bool :=
  existsb (pystr_eqb x) l.

(** [row.get("State", "").strip()] *)
Definition row_state (row : row_dict) : result pystr :=
  match dict_get okey_eqb row (Some (lit "State")) with
  | Some (VStr s) => Ok (strip s)
  | Some VNone => Raise AttributeError
  | Some (VRest _) => Raise AttributeError
  | None => Ok (strip (lit ""))
  end.

(** The loop [for row in csv_reader], which skips empty records. *)
Fixpoint count_states (fieldnames : list pystr) (rows : csv_rows)
    (state_counts : Counter) : result Counter :=
  match rows with
  | [] => Ok state_counts
  | [] :: rows' => count_states fieldnames rows' state_counts
  | row :: rows' =>
      state <- row_state (dictreader_row fieldnames row) ;;
      count_states fieldnames rows'
        (match state with
         | [] => state_counts
         | _ => counter_incr state_counts state
         end)
  end.

(** A Python [float]: an IEEE binary64 value. *)
Definition float64 : Type := SpecFloat.spec_float.

(** An [int] as an operand that has not been rounded. *)
Definition exact_int (z : Z) : float64 :=
  match z with
  | Z0 => SpecFloat.S754_zero false
  | Zpos p => SpecFloat.S754_finite false p 0
  | Zneg p => SpecFloat.S754_finite true p 0
  end.

(** The quotient of two integers rounded once, to the nearest binary64
    value, as [int / int] computes it. *)
Definition rounded_quotient (a b : Z) : float64 :=
  SpecFloat.SFdiv 53 1024 (exact_int a) (exact_int b).

(** The least magnitude that rounds to 2^1024, which no [float] holds. *)
Definition float_overflow_bound : Z := 2 ^ 1024 - 2 ^ 970.

(** [count / total_failures], Python's true division of integers. *)
Definition truediv (a b : Z) : result float64 :=
  if b =? 0 then Raise ZeroDivisionError
  else if float_overflow_bound * Z.abs b <=? Z.abs a then Raise OverflowError
  else Ok (rounded_quotient a b).

(** [float(n)] for an integer within range, here the literal 100. *)
Definition float_of_int (n : Z) : float64 :=
  SpecFloat.binary_normalize 53 1024 n 0 false.

(** [x * y] on floats. *)
Definition float_mul (x y : float64) : float64 := SpecFloat.SFmul 53 1024 x y.

Definition ranked_entry : Type := pystr * Z * float64.

(** The list comprehension building [top_10_percentages]. *)
Fixpoint percentages (total_failures : Z) (top : list (pystr * Z))
    : result (list ranked_entry) :=
  match top with
  | [] => Ok []
  | (state, count) :: top' =>
      q <- truediv count total_failures ;;
      rest <- percentages total_failures top' ;;
      Ok ((state, count, float_mul q (float_of_int 100)) :: rest)
  end.

Definition get_top_10_states_try (file : option csv_rows)
    : result (logged (list ranked_entry)) :=
  rows <- open_read file ;;
  fieldnames <- normalized_fieldnames rows ;;
  if negb (str_in (lit "State") fieldnames) then
    Ok ([LogError (MissingStateColumn fieldnames)], [])
  else
    state_counts <- count_states fieldnames (tl rows) [] ;;
    match state_counts with
    | [] => Ok ([LogError NoStateData], [])
    | _ =>
        let total_failures := sum_values state_counts in
        let top_10 := most_common state_counts 10 in
        top_10_percentages <- percentages total_failures top_10 ;;
        Ok ([], top_10_percentages)
    end.

Definition get_top_10_states (file : option csv_rows)
    : logged (list ranked_entry) :=
  match get_top_10_states_try file with
  | Ok r => r
  | Raise e => ([LogError (ErrorProcessingCSV e)], [])
  end.

(** *** Report files

    A report is the sequence of [file.write] calls: literal lines (written
    without their final newline here) and formatted entries, kept as the
    values that are formatted. *)
Inductive chunk (E : Type) : Type :=
| Line (s : string)
| Entry (e : E).
Arguments Line {E} s.
Arguments Entry {E} e.

Definition rule (n : nat) : string := String.concat "" (repeat "="%string n).

(** The part of the world [process_csv_file] touches: the fetched file
    [data/FDIC_failed_bank_list.csv] and whether the folder
    [data_processed] exists, since the script does not create it. *)
Record csv_world : Type := {
  fdic_csv : option csv_rows;
  csv_out_dir : bool
}.

(** One run of a [process_..._file] function: what it logged, the report
    it wrote (if the output file was written) and the exception that left
    it (if any). *)
Record run (E : Type) : Type := {
  run_log : list log_entry;
  run_written : option (list (chunk E));
  run_raised : option exn
}.
Arguments run_log {E} r.
Arguments run_written {E} r.
Arguments run_raised {E} r.

Definition csv_report (top_10_states : list ranked_entry)
    : list (chunk ranked_entry) :=
  [ Line "Top 10 States with Most Failed Banks:";
    Line (rule 40);
    Line "State     Count     Percentage";
    Line (rule 40) ]
  ++ map Entry top_10_states.

Definition process_csv_file (w : csv_world) : run ranked_entry :=
  let '(log, top_10_states) := get_top_10_states (fdic_csv w) in
  if csv_out_dir w then
    {| run_log := log ++ [LogInfo ProcessedCSV];
       run_written := Some (csv_report top_10_states);
       run_raised := None |}
  else
    {| run_log := log;
       run_written := None;
       run_raised := Some FileNotFoundError |}.

(** ** process_text.py *)

(** The Unicode tables the tokenizer consults outside ASCII: which code
    points count as word characters for [\b], and the lower-case mapping
    of a code point. (The one context rule of [str.lower], final sigma,
    picks between two non-ASCII letters and so cannot alter an ASCII
    token.) *)
Record unicode : Type := {
  uni_word : N -> bool;
  uni_lower : N -> list N
}.

Definition is_upper (c : N) : bool := ((65 <=? c) && (c <=? 90))%N.
Definition is_alpha (c : N) : bool :=
  (is_upper c || (97 <=? c) && (c <=? 122))%N.
Definition is_digit (c : N) : bool := ((48 <=? c) && (c <=? 57))%N.

(** A word character of the pattern language, [\w]. *)
Definition is_word (U : unicode) (c : N) : bool :=
  if (c <? 128)%N then is_alpha c || is_digit c || (c =? 95)%N
  else uni_word U c.

Definition lower_char (U : unicode) (c : N) : list N :=
  if (c <? 128)%N then (if is_upper c then [(c + 32)%N] else [c])
  else uni_lower U c.

(** [content.lower()] *)
Definition py_lower (U : unicode) (s : pystr) : pystr :=
  flat_map (lower_char U) s.

Definition flush (cur : pystr) : list pystr :=
  match cur with
  | [] => []
  | _ => [cur]
  end.

(** The maximal runs of word characters of a text, left to right; [cur]
    is the run being read. *)
Fixpoint word_runs (U : unicode) (cur : pystr) (s : pystr) : list pystr :=
  match s with
  | [] => flush cur
  | c :: s' =>
      if is_word U c then word_runs U (cur ++ [c]) s'
      else flush cur ++ word_runs U [] s'
  end.

(** [re.findall(r'\b[a-zA-Z]+\b', s)]. A match starts and ends at a word
    boundary and holds letters only, and letters are word characters, so
    the matches are the maximal runs of word characters made of letters
    only. *)
Definition findall_words (U : unicode) (s : pystr) : list pystr :=
  filter (forallb is_alpha) (word_runs U [] s).

(** The bound of a slice, clamped as Python does. *)
Definition slice_index (len i : Z) : Z :=
  if i <? 0 then Z.max (i + len) 0 else Z.min i len.

(** [l[start:stop]] *)
Definition py_slice {A : Type} (l : list A) (start stop : Z) : list A :=
  let len := Z.of_nat (length l) in
  let lo := slice_index len start in
  let hi := slice_index len stop in
  firstn (Z.to_nat (hi - lo)) (skipn (Z.to_nat lo) l).

(** [word_counts] just before the ranking. *)
Definition slice_word_counts (U : unicode) (lines : list pystr)
    (skip_lines stop_line : Z) : Counter :=
  let content := join_space (py_slice lines skip_lines stop_line) in
  let words := findall_words U (py_lower U content) in
  counter_update [] words.

Definition count_top_words_try (U : unicode) (file : option (list pystr))
    (top_n skip_lines stop_line : Z) : result (logged (list (pystr * Z))) :=
  lines <- open_read file ;;
  if Z.of_nat (length lines) <? skip_lines then
    Ok ([LogError (FewerLines skip_lines)], [])
  else
    let word_counts := slice_word_counts U lines skip_lines stop_line in
    Ok ([], most_common word_counts top_n).

Definition count_top_words (U : unicode) (file : option (list pystr))
    (top_n skip_lines stop_line : Z) : logged (list (pystr * Z)) :=
  match count_top_words_try U file top_n skip_lines stop_line with
  | Ok r => r
  | Raise e => ([LogError (ErrorProcessingText e)], [])
  end.

Definition text_report (top_words : list (pystr * Z))
    : list (chunk (pystr * Z)) :=
  [ Line "Top 50 Most Frequent Words (Lines 128-666):";
    Line (rule 50);
    Line "Word           Count";
    Line (rule 50) ]
  ++ map Entry top_words.

(** [process_text_file] creates the output folder before writing. *)
Definition process_text_file (U : unicode) (usconstitution : option (list pystr))
    : run (pystr * Z) :=
  let '(log, top_words) := count_top_words U usconstitution 50 128 666 in
  {| run_log := log ++ [LogInfo ProcessedText];
     run_written := Some (text_report top_words);
     run_raised := None |}.

(** ** process_excel.py *)

(** The value of a worksheet cell as [openpyxl] returns it: nothing, a
    truth value, an integer, a float (the finite rational it denotes), a
    string, a date or time of day ([datetime], [date], [time]) or a
    duration ([timedelta]). *)
Inductive cell : Type :=
| CNone
| CBool (b : bool)
| CInt (z : Z)
| CFloat (q : Q)
| CStr (s : pystr)
| CDate (t : Z)
| CDuration (t : Z).

(** The numeric value of an [int], [float] or [bool]. *)
Definition cell_num (c : cell) : option Q :=
  match c with
  | CBool b => Some (inject_Z (if b then 1 else 0))
  | CInt z => Some (inject_Z z)
  | CFloat q => Some q
  | _ => None
  end.

(** [isinstance(c, (int, float))] *)
Definition is_number (c : cell) : bool :=
  match cell_num c with Some _ => true | None => false end.

(** Truth value of a cell in a condition. *)
Definition truthy (c : cell) : bool :=
  match c with
  | CNone => false
  | CStr s => match s with [] => false | _ => true end
  | CDate _ => true
  | CDuration t => negb (t =? 0)
  | _ => match cell_num c with
         | Some q => negb (Qeq_bool q 0)
         | None => false
         end
  end.

(** [a == b], the equality under which a dictionary finds its keys:
    numbers by value, strings by content. *)
Definition cell_eqb (a b : cell) : bool :=
  match cell_num a, cell_num b with
  | Some x, Some y => Qeq_bool x y
  | None, None =>
      match a, b with
      | CNone, CNone => true
      | CStr s, CStr t => pystr_eqb s t
      | CDate s, CDate t => s =? t
      | CDuration s, CDuration t => s =? t
      | _, _ => false
      end
  | _, _ => false
  end.

(** [a > b] between prices. Both sides are numbers wherever the script
    compares: the new price passed [isinstance], the stored one passed it
    when it was stored. *)
Definition py_gt (a b : cell) : bool :=
  match cell_num a, cell_num b with
  | Some x, Some y => negb (Qle_bool x y)
  | _, _ => false
  end.

(** The active sheet: its first row and the rows from the second on. *)
Record sheet : Type := {
  first_row : list cell;
  data_rows : list (list cell)
}.

(** [headers.index(name)] *)
Fixpoint index_of (name : cell) (headers : list cell) : result nat :=
  match headers with
  | [] => Raise ValueError
  | h :: headers' =>
      if cell_eqb h name then Ok O
      else (i <- index_of name headers' ;; Ok (S i))
  end.

(** [row[i]] *)
Definition row_item (row : list cell) (i : nat) : result cell :=
  match nth_error row i with
  | Some c => Ok c
  | None => Raise IndexError
  end.

Definition required_columns : list cell :=
  [CStr (lit "NSN"); CStr (lit "rep_office");
   CStr (lit "common_name"); CStr (lit "Price")].

(** [required_columns.issubset(set(headers))] *)
Definition has_required_columns (headers : list cell) : bool :=
  forallb (fun name => existsb (fun h => cell_eqb h name) headers)
          required_columns.

(** The four fields read from a row: rep_office, nsn, common_name, price. *)
Definition record : Type := cell * cell * cell * cell.

Definition rec_office (r : record) : cell := fst (fst (fst r)).
Definition rec_price (r : record) : cell := snd r.
Definition rec_payload (r : record) : cell * cell * cell :=
  let '(_, nsn, common_name, price) := r in (nsn, common_name, price).

(** [rep_office and nsn and common_name and isinstance(price, (int, float))] *)
Definition valid_record (r : record) : bool :=
  let '(rep_office, nsn, common_name, price) := r in
  truthy rep_office && truthy nsn && truthy common_name && is_number price.

(** [rep_office_highest]: rep_office to (NSN, common_name, Price). *)
Definition office_dict := dict cell (cell * cell * cell).

(** The guarded assignment of the loop body, for a valid record. *)
Definition update_highest (d : office_dict) (r : record) : office_dict :=
  let '(rep_office, nsn, common_name, price) := r in
  match dict_get cell_eqb d rep_office with
  | None => dict_set cell_eqb d rep_office (nsn, common_name, price)
  | Some (_, _, stored) =>
      if py_gt price stored
      then dict_set cell_eqb d rep_office (nsn, common_name, price)
      else d
  end.

(** One turn of the loop over [sheet.iter_rows(min_row=2)]. *)
Definition read_record (nsn_idx rep_office_idx common_name_idx price_idx : nat)
    (row : list cell) : result record :=
  rep_office <- row_item row rep_office_idx ;;
  nsn <- row_item row nsn_idx ;;
  common_name <- row_item row common_name_idx ;;
  price <- row_item row price_idx ;;
  Ok (rep_office, nsn, common_name, price).

Fixpoint scan_rows (nsn_idx rep_office_idx common_name_idx price_idx : nat)
    (rows : list (list cell)) (d : office_dict) : result office_dict :=
  match rows with
  | [] => Ok d
  | row :: rows' =>
      r <- read_record nsn_idx rep_office_idx common_name_idx price_idx row ;;
      scan_rows nsn_idx rep_office_idx common_name_idx price_idx rows'
        (if valid_record r then update_highest d r else d)
  end.

Definition find_highest_price_nsn_try (file : option sheet)
    : result (logged office_dict) :=
  sh <- open_read file ;;
  let headers := first_row sh in
  if negb (has_required_columns headers) then
    Ok ([LogError MissingRequiredColumns], [])
  else
    nsn_idx <- index_of (CStr (lit "NSN")) headers ;;
    rep_office_idx <- index_of (CStr (lit "rep_office")) headers ;;
    common_name_idx <- index_of (CStr (lit "common_name")) headers ;;
    price_idx <- index_of (CStr (lit "Price")) headers ;;
    rep_office_highest <-
      scan_rows nsn_idx rep_office_idx common_name_idx price_idx
                (data_rows sh) [] ;;
    Ok ([], rep_office_highest).

Definition find_highest_price_nsn (file : option sheet) : logged office_dict :=
  match find_highest_price_nsn_try file with
  | Ok r => r
  | Raise e => ([LogError (ErrorProcessingExcel e)], [])
  end.

(** What a formatted field shows: the text of a string or a number
    padded to twenty columns, the format specification itself (a date
    formats through [strftime], which returns a format without directives
    as it stands), or a number with two decimals. *)
Inductive field_text : Type :=
| Padded (c : cell)
| FormatSpec
| TwoDecimals (c : cell).

(** [f"{c:<20}"] *)
Definition format_field (c : cell) : result field_text :=
  match c with
  | CStr _ | CBool _ | CInt _ | CFloat _ => Ok (Padded c)
  | CDate _ => Ok FormatSpec
  | CDuration _ => Raise TypeError
  | CNone => Raise TypeError
  end.

(** [f"{price:.2f}"]; an integer is converted to a float first. *)
Definition format_price (price : cell) : result field_text :=
  match price with
  | CInt z =>
      if float_overflow_bound <=? Z.abs z then Raise OverflowError
      else Ok (TwoDecimals price)
  | CBool _ | CFloat _ => Ok (TwoDecimals price)
  | CStr _ => Raise ValueError
  | CDate _ => Ok FormatSpec
  | CDuration _ => Raise TypeError
  | CNone => Raise TypeError
  end.

(** One line of the report: rep_office, NSN, common_name and price as
    they are shown. *)
Definition excel_entry : Type :=
  field_text * field_text * field_text * field_text.

(** The f-string of the loop body, its fields formatted left to right. *)
Definition format_entry (item : cell * (cell * cell * cell))
    : result excel_entry :=
  let '(rep_office, (nsn, common_name, price)) := item in
  office_text <- format_field rep_office ;;
  nsn_text <- format_field nsn ;;
  name_text <- format_field common_name ;;
  price_text <- format_price price ;;
  Ok (office_text, nsn_text, name_text, price_text).

(** The loop over [highest_prices.items()], the dictionary's own order:
    the lines written, and the exception that ended the loop, if any. *)
Fixpoint write_entries (items : office_dict)
    : list excel_entry * option exn :=
  match items with
  | [] => ([], None)
  | item :: items' =>
      match format_entry item with
      | Ok line =>
          let '(lines, raised) := write_entries items' in
          (line :: lines, raised)
      | Raise e => ([], Some e)
      end
  end.

Definition excel_report (lines : list excel_entry)
    : list (chunk excel_entry) :=
  [ Line "Highest Price NSN per rep_office:";
    Line (rule 80);
    Line "Rep Office          NSN                 Common Name         Price";
    Line (rule 80) ]
  ++ map Entry lines.

(** The workbook [data/national_stock_number_2023.xlsx] and whether the
    folder [data_processed] exists; this script does not create it. *)
Record excel_world : Type := {
  nsn_xlsx : option sheet;
  excel_out_dir : bool
}.

Definition process_excel_file (w : excel_world) : run excel_entry :=
  let '(log, highest_prices) := find_highest_price_nsn (nsn_xlsx w) in
  if excel_out_dir w then
    match write_entries highest_prices with
    | (lines, None) =>
        {| run_log := log ++ [LogInfo ProcessedExcel];
           run_written := Some (excel_report lines);
           run_raised := None |}
    | (lines, Some e) =>
        {| run_log := log;
           run_written := Some (excel_report lines);
           run_raised := Some e |}
    end
  else
    {| run_log := log;
       run_written := None;
       run_raised := Some FileNotFoundError |}.

(** ** Vocabulary of the statements *)

(** The mapping [state_counts] that the loop of [get_top_10_states]
    accumulates over a readable file. *)
Definition state_counts_of (rows : csv_rows) : result Counter :=
  fieldnames <- normalized_fieldnames rows ;;
  count_states fieldnames (tl rows) [].

(** The tokens of one line, and the lines whose index lies in
    [skip_lines <= i < stop_line]. *)
Definition line_tokens (U : unicode) (line : pystr) : list pystr :=
  findall_words U (py_lower U line).

Fixpoint lines_from {A : Type} (i : Z) (lines : list A) (lo hi : Z) : list A :=
  match lines with
  | [] => []
  | l :: lines' =>
      if (lo <=? i) && (i <? hi) then l :: lines_from (i + 1) lines' lo hi
      else lines_from (i + 1) lines' lo hi
  end.

Definition lines_in_range {A : Type} (lines : list A) (lo hi : Z) : list A :=
  lines_from 0 lines lo hi.

(** Number of occurrences of a word in a token list. *)
Definition occurrences (w : pystr) (tokens : list pystr) : Z :=
  Z.of_nat (List.length (filter (pystr_eqb w) tokens)).

(** The entries of a written report, and the rep_office column of the
    Excel report. *)
Definition report_entries {E : Type} (r : run E) : list E :=
  match run_written r with
  | Some chunks =>
      flat_map (fun c => match c with Entry e => [e] | Line _ => [] end) chunks
  | None => []
  end.

(** The office a line shows, if it shows one. *)
Definition shown_office (line : excel_entry) : list cell :=
  match fst (fst (fst line)) with
  | Padded c => [c]
  | _ => []
  end.

Definition report_offices (r : run excel_entry) : list cell :=
  flat_map shown_office (report_entries r).


(** A price that formats with two decimals: a number, and not an
    integer too large for a float. *)
Definition price_fits (price : cell) : bool :=
  match price with
  | CInt z => Z.abs z <? float_overflow_bound
  | CBool _ | CFloat _ => true
  | _ => false
  end.







(** An entry whose count is [v]. *)
Definition has_count (v : Z) (e : pystr * Z) : bool := snd e =? v.

(** Descending order of counts. *)
Definition desc (a b : pystr * Z) : Prop := snd b <= snd a.

(** A string whose first and last code points are not white space. *)
Definition trimmed (s : pystr) : Prop :=
  (forall c, hd_error s = Some c -> isspace c = false)
  /\ (forall c, hd_error (rev s) = Some c -> isspace c = false).

(** Every count of the mapping is at least 1. *)
Definition positive_counts (c : Counter) : Prop :=
  Forall (fun v => 1 <= v) (dict_values c).

(** [(count / total) * 100] in floats: the quotient rounded to the nearest
    binary64 value, then the product with 100 rounded again. *)
Definition float_percentage (count total : Z) : float64 :=
  float_mul (rounded_quotient count total) (float_of_int 100).

(** The ranked entry of an item: [(state, count, (count / total) * 100)]. *)
Definition entry_of (total : Z) (e : pystr * Z) : ranked_entry :=
  (fst e, snd e, float_percentage (snd e) total).

(** The sum of the counts of every item of a mapping. *)
Definition count_sum (l : list (pystr * Z)) : Z :=
  fold_right Z.add 0 (map snd l).

(** The rational a finite float stands for. *)
Definition float_value (x : float64) : option Q :=
  match x with
  | SpecFloat.S754_zero _ => Some 0%Q
  | SpecFloat.S754_finite s m e =>
      let v := match e with
               | Zneg k => Qmake (Zpos m) (2 ^ k)
               | _ => inject_Z (Zpos m * 2 ^ e)
               end in
      Some (if s then Qopp v else v)
  | _ => None
  end.

(** The float [x] is exactly the rational [q]. *)
Definition float_is (x : float64) (q : Q) : bool :=
  match float_value x with
  | Some v => Qeq_bool v q
  | None => false
  end.

(** The first line a slice starts at. *)
Definition slice_start (len skip_lines : Z) : Z :=
  if skip_lines <? 0 then Z.max (skip_lines + len) 0 else skip_lines.

(** What the mapping holds after a prefix of the rows: for each office,
    the payload of the earliest row of top price. *)
Definition earliest_highest (recs : list record) (k : cell)
    (stored : cell * cell * cell) : Prop :=
  exists (i : nat) (r : record),
    nth_error recs i = Some r
    /\ cell_eqb (rec_office r) k = true
    /\ rec_payload r = stored
    /\ forall (j : nat) (r' : record),
        nth_error recs j = Some r' ->
        cell_eqb (rec_office r') k = true ->
        py_gt (rec_price r') (snd stored) = false
        /\ ((j < i)%nat -> py_gt (snd stored) (rec_price r') = true).

(** The mapping [d] is right for the rows [recs] read so far. *)
Definition tracks (recs : list record) (d : office_dict) : Prop :=
  forall k : cell,
    match dict_get cell_eqb d k with
    | Some stored => earliest_highest recs k stored
    | None => forall r, In r recs -> cell_eqb (rec_office r) k = false
    end.

(** The records the loop reads from the rows, in row order. *)
Fixpoint read_all (read : list cell -> result record)
    (rows : list (list cell)) : result (list record) :=
  match rows with
  | [] => Ok []
  | row :: rows' =>
      r <- read row ;;
      rs <- read_all read rows' ;;
      Ok (r :: rs)
  end.

(** The records of a sheet, read through the header positions. *)
Definition sheet_records (sh : sheet) : result (list record) :=
  let headers := first_row sh in
  nsn_idx <- index_of (CStr (lit "NSN")) headers ;;
  rep_office_idx <- index_of (CStr (lit "rep_office")) headers ;;
  common_name_idx <- index_of (CStr (lit "common_name")) headers ;;
  price_idx <- index_of (CStr (lit "Price")) headers ;;
  read_all (read_record nsn_idx rep_office_idx common_name_idx price_idx)
           (data_rows sh).

(** ** Sample inputs *)

(** Unicode tables for a text that is ASCII throughout. *)
Definition ascii_unicode : unicode :=
  {| uni_word := fun _ => false; uni_lower := fun c => [c] |}.

(** Rows with states TX, TX, CA under a "State" header. *)
Definition scenario_a_rows : csv_rows :=
  [[lit "State"]; [lit "TX"]; [lit "TX"]; [lit "CA"]].

(** The mapping those rows accumulate. *)
Definition scenario_a_counts : Counter := [(lit "TX", 2); (lit "CA", 1)].

(** Seven records of state A among twenty-five. *)
Definition seven_of_25_rows : csv_rows :=
  [lit "State"] :: repeat [lit "A"] 7 ++ repeat [lit "B"] 18.

(** A file whose only header is "state_name", with the output folder in
    place. *)
Definition scenario_c_rows : csv_rows := [[lit "state_name"]; [lit "TX"]].

Definition scenario_c_world : csv_world :=
  {| fdic_csv := Some scenario_c_rows; csv_out_dir := true |}.

(** Office A at prices 10 and 25, office B at price 5. *)
Definition scenario_b_records : list record :=
  [ (CStr (lit "A"), CStr (lit "n1"), CStr (lit "bolt"), CInt 10);
    (CStr (lit "A"), CStr (lit "n2"), CStr (lit "nut"), CInt 25);
    (CStr (lit "B"), CStr (lit "n3"), CStr (lit "gear"), CInt 5) ].




(** Counts with a tie below the top. *)
Definition sample_counts : Counter :=
  [(lit "a", 1); (lit "b", 3); (lit "c", 2); (lit "d", 1)].

(** A two-line text. *)
Definition two_lines : list pystr := [lit "alpha beta"; lit "gamma"].

(** ** get_excel.py *)

(** What [requests.get(url)], [raise_for_status()] and reading
    [response.content] come to: the body of the response, an HTTP error
    status, a request that failed, or an exception from outside the
    hierarchy of [requests]. *)
Inductive http_outcome : Type :=
| HttpOk (content : list N)
| HttpFailure
| RequestFailure
| RequestRaised (e : exn).

(** A path as [str] shows it. *)
Definition file_path : Type := pystr.

(** What creating the parent folder, opening the file and writing the
    data come to: the file is written, one of the steps raises [IOError]
    (the name Python keeps for [OSError]), or one of them raises another
    exception, as [open] does with [ValueError] for a name that holds a
    NUL character. *)
Inductive write_outcome : Type :=
| Written
| WriteIOError
| WriteRaised (e : exn).

Inductive fetch_msg : Type :=
| EmptyUrl                       (* The URL provided is empty. ... *)
| FetchingFrom (url : pystr)     (* Fetching Excel data from url... *)
| FetchedAs (filename : pystr)   (* SUCCESS: Excel file fetched and saved as filename *)
| HttpErrorOccurred              (* HTTP error occurred: ... *)
| RequestErrorOccurred           (* Request error occurred: ... *)
| WritingTo (p : file_path)      (* Writing Excel data to p... *)
| WrittenTo (p : file_path)      (* SUCCESS: Excel data written to p *)
| ErrorWriting (p : file_path).  (* Error writing Excel data to p: ... *)

Inductive fetch_log : Type :=
| FetchError (m : fetch_msg)
| FetchInfo (m : fetch_msg).

(** The network, the platform and the disk the script runs against: the
    outcome of a request; [pathlib.Path(folder_name).joinpath(filename)]
    as the platform's path rules have it (an absolute [filename] replaces
    the folder, and a [..] in it leads out of the folder); and the outcome
    of writing a file at a path. *)
Record fetch_env : Type := {
  http_get : pystr -> http_outcome;
  joinpath : pystr -> pystr -> file_path;
  write_file : file_path -> write_outcome
}.

(** [s.endswith(suffix)] *)
Definition endswith (s suffix : pystr) : bool :=
  pystr_eqb (skipn (List.length s - List.length suffix) s) suffix.

(** What a function of this script leaves behind: its log, the files it
    wrote in full, and the exception it let escape, if any. *)
Record fetched : Type := {
  fetch_logs : list fetch_log;
  fetch_files : list (file_path * list N);
  fetch_raised : option exn
}.

Definition write_excel_file (env : fetch_env) (folder_name filename : pystr)
    (binary_data : list N) : fetched :=
  let p := joinpath env folder_name filename in
  match write_file env p with
  | Written =>
      {| fetch_logs := [FetchInfo (WritingTo p); FetchInfo (WrittenTo p)];
         fetch_files := [(p, binary_data)];
         fetch_raised := None |}
  | WriteIOError =>
      {| fetch_logs := [FetchInfo (WritingTo p); FetchError (ErrorWriting p)];
         fetch_files := [];
         fetch_raised := None |}
  | WriteRaised e =>
      {| fetch_logs := [FetchInfo (WritingTo p)];
         fetch_files := [];
         fetch_raised := Some e |}
  end.

(** The name the file is saved under. *)
Definition xlsx_name (filename : pystr) : pystr :=
  if endswith filename (lit ".xlsx") then filename
  else filename ++ lit ".xlsx".

Definition fetch_excel_file (env : fetch_env) (folder_name filename url : pystr)
    : fetched :=
  match url with
  | [] =>
      {| fetch_logs := [FetchError EmptyUrl];
         fetch_files := [];
         fetch_raised := None |}
  | _ =>
      match http_get env url with
      | HttpOk content =>
          let filename := xlsx_name filename in
          let w := write_excel_file env folder_name filename content in
          match fetch_raised w with
          | None =>
              {| fetch_logs :=
                   FetchInfo (FetchingFrom url) :: fetch_logs w
                     ++ [FetchInfo (FetchedAs filename)];
                 fetch_files := fetch_files w;
                 fetch_raised := None |}
          | Some e =>
              {| fetch_logs := FetchInfo (FetchingFrom url) :: fetch_logs w;
                 fetch_files := fetch_files w;
                 fetch_raised := Some e |}
          end
      | HttpFailure =>
          {| fetch_logs :=
               [FetchInfo (FetchingFrom url); FetchError HttpErrorOccurred];
             fetch_files := [];
             fetch_raised := None |}
      | RequestFailure =>
          {| fetch_logs :=
               [FetchInfo (FetchingFrom url); FetchError RequestErrorOccurred];
             fetch_files := [];
             fetch_raised := None |}
      | RequestRaised e =>
          {| fetch_logs := [FetchInfo (FetchingFrom url)];
             fetch_files := [];
             fetch_raised := Some e |}
      end
  end.

(** ** Vocabulary of the further statements *)

(** The stripped "State" value of every record the loop of
    [get_top_10_states] visits. *)
Fixpoint row_states (fieldnames : list pystr) (rows : csv_rows)
    : result (list pystr) :=
  match rows with
  | [] => Ok []
  | [] :: rows' => row_states fieldnames rows'
  | row :: rows' =>
      state <- row_state (dictreader_row fieldnames row) ;;
      rest <- row_states fieldnames rows' ;;
      Ok (state :: rest)
  end.

(** A string that is not empty. *)
Definition nonempty (s : pystr) : bool :=
  match s with [] => false | _ => true end.

(** The distinct strings of a list in order of first appearance. *)
Fixpoint first_occurrences (ws : list pystr) : list pystr :=
  match ws with
  | [] => []
  | w :: ws' =>
      w :: filter (fun w' => negb (pystr_eqb w w')) (first_occurrences ws')
  end.

(** A lower-case ASCII letter. *)
Definition is_lower (c : N) : bool := ((97 <=? c) && (c <=? 122))%N.

(** The lower-case mapping never yields an upper-case ASCII letter. *)
Definition lowers (U : unicode) : Prop :=
  forall c x, In x (uni_lower U c) -> is_upper x = false.

(** The tokens [count_top_words] counts, in reading order. *)
Definition slice_tokens (U : unicode) (lines : list pystr)
    (skip_lines stop_line : Z) : list pystr :=
  flat_map (line_tokens U) (py_slice lines skip_lines stop_line).

(** Keys no two of which are equal as dictionary keys. *)
Definition distinct_offices (ks : list cell) : Prop :=
  ForallOrdPairs (fun a b => cell_eqb a b = false) ks.

(** A duration, the one kind of cell that passes the validity test and
    has no padded form. *)
Definition is_duration (c : cell) : bool :=
  match c with CDuration _ => true | _ => false end.

(** A record one of whose three text fields is a duration. *)
Definition has_duration (r : record) : bool :=
  let '(rep_office, nsn, common_name, _) := r in
  is_duration rep_office || is_duration nsn || is_duration common_name.

(** ** Further sample inputs *)

(** A header that repeats no name, and a row under it. *)
Definition bank_header : list pystr := [lit "Bank"; lit "City"; lit "State"].

Definition bank_row : list pystr := [lit "First"; lit "Austin"; lit " TX "].

(** A file with one record that stops before the "State" column. *)
Definition short_row_rows : csv_rows :=
  [bank_header; bank_row; [lit "Second"]].

(** The join of a plain folder name and a plain file name on POSIX. *)
Definition plain_join (folder_name filename : pystr) : file_path :=
  folder_name ++ lit "/" ++ filename.

(** A network that answers every request with three bytes and a disk
    that refuses every write. *)
Definition full_disk_env : fetch_env :=
  {| http_get := fun _ => HttpOk [80; 75; 3]%N;
     joinpath := plain_join;
     write_file := fun _ => WriteIOError |}.

Definition working_env : fetch_env :=
  {| http_get := fun _ => HttpOk [80; 75; 3]%N;
     joinpath := plain_join;
     write_file := fun _ => Written |}.

(** A disk on which [open] rejects the name with [ValueError]. *)
Definition bad_name_env : fetch_env :=
  {| http_get := fun _ => HttpOk [80; 75; 3]%N;
     joinpath := plain_join;
     write_file := fun _ => WriteRaised ValueError |}.

(** A workbook of scenario B, and the same rows in another order. *)
Definition office_header : list cell :=
  [CStr (lit "rep_office"); CStr (lit "NSN");
   CStr (lit "common_name"); CStr (lit "Price")].

Definition scenario_b_sheet : sheet :=
  {| first_row := office_header;
     data_rows := [ [CStr (lit "A"); CStr (lit "n1"); CStr (lit "bolt"); CInt 10];
                    [CStr (lit "A"); CStr (lit "n2"); CStr (lit "nut"); CInt 25];
                    [CStr (lit "B"); CStr (lit "n3"); CStr (lit "gear"); CInt 5] ] |}.

Definition scenario_b_sheet_reordered : sheet :=
  {| first_row := office_header;
     data_rows := [ [CStr (lit "A"); CStr (lit "n2"); CStr (lit "nut"); CInt 25];
                    [CStr (lit "A"); CStr (lit "n1"); CStr (lit "bolt"); CInt 10];
                    [CStr (lit "B"); CStr (lit "n3"); CStr (lit "gear"); CInt 5] ] |}.

(** Scenario B with a row that has no office and a row whose price is
    text. *)
Definition scenario_b_sheet_with_blanks : sheet :=
  {| first_row := office_header;
     data_rows := [ [CStr (lit "A"); CStr (lit "n1"); CStr (lit "bolt"); CInt 10];
                    [CNone; CStr (lit "n9"); CStr (lit "pin"); CInt 99];
                    [CStr (lit "A"); CStr (lit "n2"); CStr (lit "nut"); CInt 25];
                    [CStr (lit "B"); CStr (lit "n8"); CStr (lit "cog"); CStr (lit "n/a")];
                    [CStr (lit "B"); CStr (lit "n3"); CStr (lit "gear"); CInt 5] ] |}.




(** * Properties *)

(** ** Strings and dictionaries *)

Lemma pystr_eqb_eq (a b : pystr) : pystr_eqb a b = true <-> a = b.
Proof.
  revert b; induction a as [|x a IH]; destruct b as [|y b]; simpl;
    try (split; congruence).
  rewrite andb_true_iff, N.eqb_eq, IH. split.
  - intros [-> ->]; reflexivity.
  - intros E; injection E; auto.
Qed.

Lemma pystr_eqb_refl (a : pystr) : pystr_eqb a a = true.
Proof. apply pystr_eqb_eq; reflexivity. Qed.

Lemma pystr_eqb_neq (a b : pystr) : pystr_eqb a b = false <-> a <> b.
Proof.
  split.
  - intros E H. apply pystr_eqb_eq in H. congruence.
  - intros H. destruct (pystr_eqb a b) eqn:E; [|reflexivity].
    apply pystr_eqb_eq in E. contradiction.
Qed.

Section PyDictFacts.
Context {K V : Type}.
Variable keq : K -> K -> bool.
Hypothesis keq_refl : forall k, keq k k = true.
Hypothesis keq_sym : forall a b, keq a b = keq b a.
Hypothesis keq_trans :
  forall a b c, keq a b = true -> keq b c = true -> keq a c = true.

Lemma keq_congr (a b c : K) : keq a b = true -> keq a c = keq b c.
Proof.
  intros Hab. destruct (keq b c) eqn:Hbc.
  - eauto.
  - destruct (keq a c) eqn:Hac; [|reflexivity].
    rewrite keq_sym in Hab. rewrite <- Hbc. symmetry. eauto.
Qed.

Lemma dict_get_congr (d : dict K V) (a b : K) :
  keq a b = true -> dict_get keq d a = dict_get keq d b.
Proof.
  intros Hab. induction d as [|[k v] d IH]; simpl; [reflexivity|].
  rewrite (keq_sym k a), (keq_sym k b), (keq_congr a b k Hab), IH.
  reflexivity.
Qed.

Lemma dict_get_set_eq (d : dict K V) (k k' : K) (v : V) :
  keq k k' = true -> dict_get keq (dict_set keq d k v) k' = Some v.
Proof.
  intros Hk. induction d as [|[k0 v0] d IH]; simpl.
  - rewrite Hk. reflexivity.
  - destruct (keq k0 k) eqn:E0; simpl.
    + rewrite (keq_trans _ _ _ E0 Hk). reflexivity.
    + destruct (keq k0 k') eqn:E1; [|exact IH].
      rewrite keq_sym in Hk. rewrite (keq_trans _ _ _ E1 Hk) in E0.
      discriminate.
Qed.

Lemma dict_get_set_neq (d : dict K V) (k k' : K) (v : V) :
  keq k k' = false ->
  dict_get keq (dict_set keq d k v) k' = dict_get keq d k'.
Proof.
  intros Hk. induction d as [|[k0 v0] d IH]; simpl.
  - rewrite Hk. reflexivity.
  - destruct (keq k0 k) eqn:E0; simpl.
    + rewrite (keq_congr _ _ _ E0), Hk. reflexivity.
    + destruct (keq k0 k'); [reflexivity | exact IH].
Qed.

Lemma dict_keys_set (d : dict K V) (k : K) (v : V) :
  dict_keys (dict_set keq d k v) =
  if dict_mem keq d k then dict_keys d else dict_keys d ++ [k].
Proof.
  unfold dict_mem. induction d as [|[k0 v0] d IH]; simpl; [reflexivity|].
  destruct (keq k0 k); simpl; [reflexivity|].
  rewrite IH. destruct (dict_get keq d k); reflexivity.
Qed.

Lemma dict_set_values (P : V -> Prop) (d : dict K V) (k : K) (v : V) :
  Forall P (dict_values d) -> P v -> Forall P (dict_values (dict_set keq d k v)).
Proof.
  intros Hd Hv. induction d as [|[k0 v0] d IH]; simpl.
  - constructor; [exact Hv | constructor].
  - simpl in Hd. inversion Hd; subst.
    destruct (keq k0 k); simpl; constructor; auto.
Qed.

Lemma dict_get_values (P : V -> Prop) (d : dict K V) (k : K) (v : V) :
  Forall P (dict_values d) -> dict_get keq d k = Some v -> P v.
Proof.
  induction d as [|[k0 v0] d IH]; simpl; [discriminate|].
  intros Hd. inversion Hd; subst.
  destruct (keq k0 k); [intros E; injection E as <-; assumption | auto].
Qed.
End PyDictFacts.

(** ** The ranking *)

Lemma filter_insert_desc (v : Z) (x : pystr * Z) (l : list (pystr * Z)) :
  filter (has_count v) (insert_desc x l) = filter (has_count v) (x :: l).
Proof.
  induction l as [|y l IH]; [reflexivity|].
  cbn [insert_desc]. destruct (snd y <=? snd x) eqn:E; [reflexivity|].
  apply Z.leb_gt in E.
  cbn [filter] in *. rewrite IH. unfold has_count.
  destruct (snd y =? v) eqn:Ey, (snd x =? v) eqn:Ex; try reflexivity.
  apply Z.eqb_eq in Ey, Ex. lia.
Qed.

Lemma filter_sorted_desc (v : Z) (l : list (pystr * Z)) :
  filter (has_count v) (sorted_desc l) = filter (has_count v) l.
Proof.
  induction l as [|x l IH]; [reflexivity|].
  cbn [sorted_desc fold_right]. fold (sorted_desc l).
  rewrite filter_insert_desc. cbn [filter]. rewrite IH. reflexivity.
Qed.

Lemma insert_desc_perm (x : pystr * Z) (l : list (pystr * Z)) :
  Permutation (x :: l) (insert_desc x l).
Proof.
  induction l as [|y l IH]; cbn [insert_desc]; [apply Permutation_refl|].
  destruct (snd y <=? snd x); [apply Permutation_refl|].
  eapply perm_trans; [apply perm_swap|]. apply perm_skip, IH.
Qed.

Lemma sorted_desc_perm (l : list (pystr * Z)) :
  Permutation l (sorted_desc l).
Proof.
  induction l as [|x l IH]; [constructor|].
  cbn [sorted_desc fold_right]. fold (sorted_desc l).
  eapply perm_trans; [apply perm_skip, IH | apply insert_desc_perm].
Qed.

Lemma insert_desc_sorted (x : pystr * Z) (l : list (pystr * Z)) :
  StronglySorted desc l -> StronglySorted desc (insert_desc x l).
Proof.
  induction l as [|y l IH]; intros Hs; cbn [insert_desc].
  - repeat constructor.
  - inversion Hs as [|? ? Hl Hy]; subst.
    destruct (snd y <=? snd x) eqn:E.
    + apply Z.leb_le in E. constructor; [exact Hs|].
      constructor; [exact E|].
      eapply Forall_impl; [|exact Hy]. unfold desc; intros; lia.
    + apply Z.leb_gt in E. constructor; [apply IH, Hl|].
      eapply Permutation_Forall; [apply insert_desc_perm|].
      constructor; [unfold desc; lia | exact Hy].
Qed.

Lemma sorted_desc_sorted (l : list (pystr * Z)) :
  StronglySorted desc (sorted_desc l).
Proof.
  induction l as [|x l IH]; [constructor|].
  cbn [sorted_desc fold_right]. apply insert_desc_sorted, IH.
Qed.

Lemma sorted_desc_fixed (l : list (pystr * Z)) :
  StronglySorted desc l -> sorted_desc l = l.
Proof.
  induction 1 as [|x l Hl IH Hx]; [reflexivity|].
  cbn [sorted_desc fold_right]. fold (sorted_desc l). rewrite IH.
  destruct l as [|y l]; [reflexivity|]. cbn [insert_desc].
  inversion Hx as [|? ? Hy _]; subst. unfold desc in Hy.
  apply Z.leb_le in Hy. rewrite Hy. reflexivity.
Qed.

Lemma firstn_sorted {A : Type} (R : A -> A -> Prop) (k : nat) (l : list A) :
  StronglySorted R l -> StronglySorted R (firstn k l).
Proof.
  intros Hs. revert k. induction Hs as [|x l Hl IH Hx]; intros [|k]; simpl;
    try constructor; auto.
  rewrite Forall_forall in *. intros y Hy. apply Hx.
  rewrite <- (firstn_skipn k l). apply in_or_app; left; exact Hy.
Qed.

Lemma sorted_split {A : Type} (R : A -> A -> Prop) (k : nat) (l : list A) :
  StronglySorted R l ->
  forall a b, In a (firstn k l) -> In b (skipn k l) -> R a b.
Proof.
  intros Hs. revert k. induction Hs as [|x l Hl IH Hx]; intros k a b Ha Hb.
  - rewrite firstn_nil in Ha. contradiction.
  - destruct k as [|k]; [contradiction|]. simpl in Ha, Hb.
    destruct Ha as [->|Ha]; [|eauto].
    rewrite Forall_forall in Hx. apply Hx.
    rewrite <- (firstn_skipn k l). apply in_or_app; right; exact Hb.
Qed.

Lemma most_common_incl (m : Counter) (top_n : Z) (e : pystr * Z) :
  In e (most_common m top_n) -> In e m.
Proof.
  unfold most_common. destruct (top_n <=? 0); [contradiction|].
  intros H.
  apply (Permutation_in _ (Permutation_sym (sorted_desc_perm m))).
  rewrite <- (firstn_skipn (Z.to_nat top_n)). apply in_or_app; left; exact H.
Qed.

(** C3. The ranking breaks ties by insertion order: for every count [v],
    the ranked entries whose count is [v] are, in the same order, an
    initial segment of the mapping's entries whose count is [v]. The
    ranking is a function of the mapping and [top_n], and ranking its own
    output again with the same [top_n] changes nothing. *)
Theorem most_common_tie_break_insertion_order :
  forall (m : Counter) (top_n : Z),
    (forall v : Z, exists rest,
        filter (has_count v) m
        = filter (has_count v) (most_common m top_n) ++ rest)
    /\ most_common m top_n = most_common m top_n
    /\ most_common (most_common m top_n) top_n = most_common m top_n.
Proof.
  intros m top_n. split; [|split; [reflexivity|]].
  - intros v. unfold most_common. destruct (top_n <=? 0).
    + exists (filter (has_count v) m). reflexivity.
    + exists (filter (has_count v) (skipn (Z.to_nat top_n) (sorted_desc m))).
      rewrite <- filter_app, firstn_skipn. symmetry. apply filter_sorted_desc.
  - unfold most_common. destruct (top_n <=? 0); [reflexivity|].
    rewrite sorted_desc_fixed.
    + rewrite firstn_firstn, Nat.min_id. reflexivity.
    + apply firstn_sorted, sorted_desc_sorted.
Qed.

(** C6. Every entry the ranking emits has a count at least as large as
    that of every entry of the mapping it does not emit. *)
Theorem most_common_dominates_rest :
  forall (m : Counter) (top_n : Z) (e e' : pystr * Z),
    In e (most_common m top_n) ->
    In e' m ->
    ~ In e' (most_common m top_n) ->
    snd e' <= snd e.
Proof.
  intros m top_n e e' He He' Hn. unfold most_common in *.
  destruct (top_n <=? 0); [contradiction|].
  apply (Permutation_in _ (sorted_desc_perm m)) in He'.
  rewrite <- (firstn_skipn (Z.to_nat top_n)) in He'.
  apply in_app_or in He'. destruct He' as [He'|He']; [contradiction|].
  exact (sorted_split desc _ _ (sorted_desc_sorted m) e e' He He').
Qed.

(** ** Field-name normalization *)

Lemma lstrip_head (s : pystr) (c : N) :
  hd_error (lstrip s) = Some c -> isspace c = false.
Proof.
  induction s as [|x s IH]; simpl; [discriminate|].
  destruct (isspace x) eqn:E; [exact IH|].
  simpl. intros H; injection H as <-. exact E.
Qed.

Lemma lstrip_fixed (s : pystr) :
  (forall c, hd_error s = Some c -> isspace c = false) -> lstrip s = s.
Proof.
  destruct s as [|x s]; simpl; [reflexivity|].
  intros H. rewrite (H x eq_refl). reflexivity.
Qed.

Lemma lstrip_suffix (s : pystr) : exists p, s = p ++ lstrip s.
Proof.
  induction s as [|x s [p IH]]; simpl.
  - exists []. reflexivity.
  - destruct (isspace x).
    + exists (x :: p). simpl. rewrite <- IH. reflexivity.
    + exists []. reflexivity.
Qed.

Lemma hd_error_app_some {A : Type} (l r : list A) (a : A) :
  hd_error l = Some a -> hd_error (l ++ r) = Some a.
Proof. destruct l; simpl; [discriminate | auto]. Qed.

Lemma rstrip_prefix (s : pystr) : exists q, s = rstrip s ++ q.
Proof.
  unfold rstrip. destruct (lstrip_suffix (rev s)) as [p Hp].
  exists (rev p). rewrite <- rev_app_distr, <- Hp, rev_involutive.
  reflexivity.
Qed.

Lemma strip_trimmed (s : pystr) : trimmed (strip s).
Proof.
  unfold strip. split.
  - intros c Hc. apply (lstrip_head s).
    destruct (rstrip_prefix (lstrip s)) as [q Hq]. rewrite Hq.
    apply hd_error_app_some. exact Hc.
  - intros c. unfold rstrip. rewrite rev_involutive. apply lstrip_head.
Qed.

Lemma trimmed_strip (s : pystr) : trimmed s -> strip s = s.
Proof.
  intros [Hh Hl]. unfold strip, rstrip.
  rewrite (lstrip_fixed s Hh), (lstrip_fixed (rev s) Hl).
  apply rev_involutive.
Qed.

Lemma filter_rev {A : Type} (f : A -> bool) (l : list A) :
  filter f (rev l) = rev (filter f l).
Proof.
  induction l as [|x l IH]; simpl; [reflexivity|].
  rewrite filter_app, IH. simpl. destruct (f x); simpl.
  - reflexivity.
  - rewrite app_nil_r. reflexivity.
Qed.

Lemma remove_nbsp_head (s : pystr) :
  (forall c, hd_error s = Some c -> isspace c = false) ->
  forall c, hd_error (remove_nbsp s) = Some c -> isspace c = false.
Proof.
  destruct s as [|x s]; simpl; [discriminate|].
  intros H c. specialize (H x eq_refl).
  destruct (N.eqb x nbsp) eqn:E.
  - apply N.eqb_eq in E. subst x. discriminate.
  - simpl. intros Hc; injection Hc as <-. exact H.
Qed.

Lemma remove_nbsp_trimmed (s : pystr) : trimmed s -> trimmed (remove_nbsp s).
Proof.
  intros [Hh Hl]. split.
  - apply remove_nbsp_head, Hh.
  - unfold remove_nbsp. rewrite <- filter_rev. apply remove_nbsp_head, Hl.
Qed.

Lemma remove_nbsp_idem (s : pystr) :
  remove_nbsp (remove_nbsp s) = remove_nbsp s.
Proof.
  unfold remove_nbsp. induction s as [|x s IH]; simpl; [reflexivity|].
  destruct (negb (N.eqb x nbsp)) eqn:E; simpl; [rewrite E, IH|]; auto.
Qed.

(** C9. Field-name normalization (strip, then drop the non-breaking
    spaces) is idempotent. *)
Theorem normalize_idempotent :
  forall s : pystr, normalize (normalize s) = normalize s.
Proof.
  intros s. unfold normalize.
  rewrite (trimmed_strip (remove_nbsp (strip s))).
  - apply remove_nbsp_idem.
  - apply remove_nbsp_trimmed, strip_trimmed.
Qed.

(** ** Counters *)

Lemma pystr_eqb_sym (a b : pystr) : pystr_eqb a b = pystr_eqb b a.
Proof.
  destruct (pystr_eqb b a) eqn:E.
  - apply pystr_eqb_eq in E. subst. apply pystr_eqb_refl.
  - apply pystr_eqb_neq in E. apply pystr_eqb_neq. congruence.
Qed.

Lemma pystr_eqb_trans (a b c : pystr) :
  pystr_eqb a b = true -> pystr_eqb b c = true -> pystr_eqb a c = true.
Proof. rewrite !pystr_eqb_eq. congruence. Qed.

Lemma counter_getitem_incr (c : Counter) (k w : pystr) :
  counter_getitem (counter_incr c k) w
  = counter_getitem c w + (if pystr_eqb w k then 1 else 0).
Proof.
  unfold counter_incr, counter_getitem at 1.
  destruct (pystr_eqb w k) eqn:E.
  - rewrite pystr_eqb_sym in E.
    rewrite (dict_get_set_eq pystr_eqb pystr_eqb_sym pystr_eqb_trans _ _ _ _ E).
    apply pystr_eqb_eq in E. subst. reflexivity.
  - rewrite pystr_eqb_sym in E.
    rewrite (dict_get_set_neq pystr_eqb pystr_eqb_sym pystr_eqb_trans _ _ _ _ E).
    unfold counter_getitem. lia.
Qed.

Lemma occurrences_cons (w x : pystr) (ws : list pystr) :
  occurrences w (x :: ws)
  = (if pystr_eqb w x then 1 else 0) + occurrences w ws.
Proof.
  unfold occurrences. simpl. destruct (pystr_eqb w x); simpl length; lia.
Qed.

Lemma counter_getitem_update (ws : list pystr) (c : Counter) (w : pystr) :
  counter_getitem (counter_update c ws) w
  = counter_getitem c w + occurrences w ws.
Proof.
  unfold counter_update. revert c. induction ws as [|x ws IH]; intros c.
  - unfold occurrences. simpl. lia.
  - simpl. rewrite IH, counter_getitem_incr, occurrences_cons. lia.
Qed.

Lemma dict_get_none_keys (c : Counter) (k : pystr) :
  dict_get pystr_eqb c k = None -> ~ In k (dict_keys c).
Proof.
  induction c as [|[k0 v0] c IH]; simpl; [tauto|].
  destruct (pystr_eqb k0 k) eqn:E; [discriminate|].
  apply pystr_eqb_neq in E. intros H [H0|H0]; [congruence | exact (IH H H0)].
Qed.

Lemma counter_incr_nodup (c : Counter) (k : pystr) :
  NoDup (dict_keys c) -> NoDup (dict_keys (counter_incr c k)).
Proof.
  intros H. unfold counter_incr. rewrite dict_keys_set. unfold dict_mem.
  destruct (dict_get pystr_eqb c k) eqn:E; [exact H|].
  apply NoDup_app; [exact H | repeat constructor; auto |].
  intros x Hx [<-|[]]. exact (dict_get_none_keys c k E Hx).
Qed.

Lemma in_nodup_dict_get (c : Counter) (k : pystr) (n : Z) :
  NoDup (dict_keys c) -> In (k, n) c -> dict_get pystr_eqb c k = Some n.
Proof.
  induction c as [|[k0 v0] c IH]; simpl; [tauto|].
  intros Hnd. inversion Hnd as [|? ? Hk0 Hc]; subst.
  intros [H|H].
  - injection H as -> ->. rewrite pystr_eqb_refl. reflexivity.
  - destruct (pystr_eqb k0 k) eqn:E; [|auto].
    apply pystr_eqb_eq in E. subst k0. exfalso. apply Hk0.
    unfold dict_keys. apply (in_map fst) in H. exact H.
Qed.

Lemma counter_incr_positive (c : Counter) (k : pystr) :
  positive_counts c -> positive_counts (counter_incr c k).
Proof.
  intros H. unfold counter_incr. apply dict_set_values; [exact H|].
  unfold counter_getitem. destruct (dict_get pystr_eqb c k) eqn:E; [|lia].
  pose proof (dict_get_values pystr_eqb _ c k z H E) as Hz. simpl in Hz. lia.
Qed.

Lemma counter_update_nodup (ws : list pystr) (c : Counter) :
  NoDup (dict_keys c) -> NoDup (dict_keys (counter_update c ws)).
Proof.
  unfold counter_update. revert c.
  induction ws as [|x ws IH]; intros c H; simpl; [exact H|].
  apply IH, counter_incr_nodup, H.
Qed.

Lemma counter_update_positive (ws : list pystr) (c : Counter) :
  positive_counts c -> positive_counts (counter_update c ws).
Proof.
  unfold counter_update. revert c.
  induction ws as [|x ws IH]; intros c H; simpl; [exact H|].
  apply IH, counter_incr_positive, H.
Qed.

Lemma fold_add_lower (l : list Z) (a : Z) :
  Forall (fun v => 1 <= v) l ->
  a + Z.of_nat (List.length l) <= fold_left Z.add l a.
Proof.
  revert a. induction l as [|x l IH]; intros a H; simpl.
  - lia.
  - inversion H; subst. specialize (IH (a + x) ltac:(assumption)). lia.
Qed.

Lemma sum_values_positive (c : Counter) :
  positive_counts c -> c <> [] -> 1 <= sum_values c.
Proof.
  intros H Hne. unfold sum_values.
  pose proof (fold_add_lower (dict_values c) 0 H) as Hs.
  destruct c as [|e c]; [congruence|]. simpl in *. lia.
Qed.

(** ** The CSV pipeline *)

Lemma count_states_preserves (P : Counter -> Prop) (fieldnames : list pystr) :
  (forall c k, P c -> P (counter_incr c k)) ->
  forall rows c m,
    P c -> count_states fieldnames rows c = Ok m -> P m.
Proof.
  intros Hincr rows. induction rows as [|row rows IH]; intros c m Hc H.
  - simpl in H. injection H as <-. exact Hc.
  - destruct row as [|f row]; [exact (IH c m Hc H)|].
    cbn [count_states] in H. unfold bind in H.
    destruct (row_state (dictreader_row fieldnames (f :: row))) as [state|e];
      [|discriminate].
    destruct state; (eapply IH; [|exact H]); auto.
Qed.

Lemma count_states_raises (fieldnames : list pystr) (rows : csv_rows)
    (c : Counter) (e : exn) :
  count_states fieldnames rows c = Raise e -> e = AttributeError.
Proof.
  revert c. induction rows as [|row rows IH]; intros c H.
  - discriminate.
  - destruct row as [|f row]; [exact (IH c H)|].
    cbn [count_states] in H. unfold bind in H.
    destruct (row_state (dictreader_row fieldnames (f :: row))) as [state|e0] eqn:E.
    + destruct state; eapply IH; exact H.
    + injection H as <-. unfold row_state in E.
      destruct (dict_get okey_eqb _ _) as [[| |]|]; congruence.
Qed.

Lemma fold_add_member (l : list Z) (x a : Z) :
  Forall (fun v => 1 <= v) l -> In x l -> a + x <= fold_left Z.add l a.
Proof.
  revert a. induction l as [|y l IH]; intros a Hl Hx; [contradiction|].
  inversion Hl as [|? ? Hy Hl']; subst. cbn [fold_left].
  destruct Hx as [->|Hx].
  - pose proof (fold_add_lower l (a + x) Hl'). lia.
  - specialize (IH (a + y) Hl' Hx). lia.
Qed.

Lemma float_overflow_bound_large : 2 <= float_overflow_bound.
Proof. apply Z.leb_le. vm_compute. reflexivity. Qed.

(** A count within the total divides without error. *)
Lemma truediv_share (count total : Z) :
  1 <= count <= total -> truediv count total = Ok (rounded_quotient count total).
Proof.
  intros H. unfold truediv.
  destruct (total =? 0) eqn:E; [apply Z.eqb_eq in E; lia|].
  destruct (float_overflow_bound * Z.abs total <=? Z.abs count) eqn:Eo;
    [|reflexivity].
  apply Z.leb_le in Eo. pose proof float_overflow_bound_large as Hb.
  rewrite !Z.abs_eq in Eo by lia. nia.
Qed.

Lemma percentages_ok (total : Z) (top : list (pystr * Z)) :
  Forall (fun e => 1 <= snd e <= total) top ->
  percentages total top = Ok (map (entry_of total) top).
Proof.
  induction 1 as [|[state count] top Hc _ IH]; [reflexivity|].
  cbn [percentages]. cbn [snd] in Hc. rewrite (truediv_share _ _ Hc).
  cbn [bind]. rewrite IH. reflexivity.
Qed.

Lemma counts_within_total (m : Counter) :
  positive_counts m ->
  forall e, In e m -> 1 <= snd e <= sum_values m.
Proof.
  intros Hpos e Hin. assert (Hv : In (snd e) (dict_values m))
    by (unfold dict_values; apply in_map; exact Hin).
  split.
  - unfold positive_counts in Hpos. rewrite Forall_forall in Hpos.
    apply Hpos, Hv.
  - unfold sum_values.
    pose proof (fold_add_member (dict_values m) (snd e) 0 Hpos Hv). lia.
Qed.

Lemma ranked_counts_within_total (m : Counter) (n : Z) :
  positive_counts m ->
  Forall (fun e => 1 <= snd e <= sum_values m) (most_common m n).
Proof.
  intros Hpos. apply Forall_forall. intros e He.
  apply (counts_within_total m Hpos), (most_common_incl m n), He.
Qed.

Lemma state_counts_invariant (fieldnames : list pystr) (rows : csv_rows)
    (m : Counter) :
  count_states fieldnames rows [] = Ok m ->
  NoDup (dict_keys m) /\ positive_counts m.
Proof.
  intros H. split.
  - apply (count_states_preserves (fun c => NoDup (dict_keys c)) fieldnames
             counter_incr_nodup rows [] m); [constructor | exact H].
  - apply (count_states_preserves positive_counts fieldnames
             counter_incr_positive rows [] m); [constructor | exact H].
Qed.

(** The paths through [get_top_10_states] on a file that can be read. *)
Lemma get_top_10_states_paths (rows : csv_rows) (fieldnames : list pystr) :
  normalized_fieldnames rows = Ok fieldnames ->
  get_top_10_states (Some rows) =
  if negb (str_in (lit "State") fieldnames) then
    ([LogError (MissingStateColumn fieldnames)], [])
  else
    match count_states fieldnames (tl rows) [] with
    | Raise e => ([LogError (ErrorProcessingCSV e)], [])
    | Ok [] => ([LogError NoStateData], [])
    | Ok m => ([], map (entry_of (sum_values m)) (most_common m 10))
    end.
Proof.
  intros Hf. unfold get_top_10_states, get_top_10_states_try.
  cbn [open_read bind]. rewrite Hf. cbn [bind].
  destruct (negb (str_in (lit "State") fieldnames)); [reflexivity|].
  destruct (count_states fieldnames (tl rows) []) as [m|e] eqn:E;
    [|reflexivity].
  cbn [bind]. destruct m as [|kv m]; [reflexivity|].
  destruct (state_counts_invariant _ _ _ E) as [_ Hpos].
  rewrite percentages_ok; [reflexivity|].
  apply ranked_counts_within_total, Hpos.
Qed.

(** C1, as the code has it. When the normalized headers lack "State",
    [get_top_10_states] logs the error with the headers found and returns
    an empty list; [process_csv_file] then still writes the report, title
    and header lines with an empty body, whenever the output folder
    exists, and writes nothing when it does not. *)
Theorem schema_failure_writes_empty_report :
  forall (w : csv_world) (rows : csv_rows) (fieldnames : list pystr),
    fdic_csv w = Some rows ->
    normalized_fieldnames rows = Ok fieldnames ->
    str_in (lit "State") fieldnames = false ->
    get_top_10_states (Some rows)
      = ([LogError (MissingStateColumn fieldnames)], [])
    /\ run_written (process_csv_file w)
       = (if csv_out_dir w then Some (csv_report []) else None)
    /\ report_entries (process_csv_file w) = [].
Proof.
  intros w rows fieldnames Hw Hf Hs.
  pose proof (get_top_10_states_paths rows fieldnames Hf) as Hp.
  rewrite Hs in Hp. cbn [negb] in Hp. split; [exact Hp|].
  unfold report_entries, process_csv_file. rewrite Hw, Hp.
  destruct (csv_out_dir w); split; reflexivity.
Qed.

Lemma count_sum_perm (l l' : list (pystr * Z)) :
  Permutation l l' -> count_sum l = count_sum l'.
Proof.
  unfold count_sum. induction 1; cbn [map fold_right] in *; lia.
Qed.

Lemma fold_add_count_sum (m : Counter) (a : Z) :
  fold_left Z.add (dict_values m) a = a + count_sum m.
Proof.
  unfold count_sum, dict_values. revert a.
  induction m as [|e m IH]; intros a; cbn [map fold_left fold_right];
    [lia|]. rewrite IH. lia.
Qed.

(** C2, as the code has it. In count mode every entry
    [(state, count, percentage)] returned by [get_top_10_states] carries
    the count the mapping holds for that state, and its percentage is the
    float [(count / total) * 100]: the quotient rounded to the nearest
    binary64 value, then the product with 100 rounded again. The total is
    the sum of the counts of every key of the mapping, not of the emitted
    entries only, so the count never exceeds it. *)
Theorem percentage_of_whole_population :
  forall (rows : csv_rows) (m : Counter)
         (state : pystr) (count : Z) (percentage : float64),
    state_counts_of rows = Ok m ->
    In (state, count, percentage) (snd (get_top_10_states (Some rows))) ->
    dict_get pystr_eqb m state = Some count
    /\ percentage = float_percentage count (count_sum m)
    /\ 1 <= count <= count_sum m.
Proof.
  intros rows m state count percentage Hm Hin.
  unfold state_counts_of in Hm.
  destruct (normalized_fieldnames rows) as [fieldnames|e] eqn:Hf;
    [|discriminate].
  cbn [bind] in Hm.
  rewrite (get_top_10_states_paths rows fieldnames Hf), Hm in Hin.
  destruct (negb (str_in (lit "State") fieldnames)); [contradiction|].
  destruct m as [|kv m]; [contradiction|].
  cbn [snd] in Hin. apply in_map_iff in Hin.
  destruct Hin as [[s c] [He Hin]]. unfold entry_of in He. cbn [fst snd] in He.
  injection He as -> -> <-.
  apply most_common_incl in Hin.
  destruct (state_counts_invariant _ _ _ Hm) as [Hnd Hpos].
  assert (Hsum : sum_values (kv :: m) = count_sum (kv :: m))
    by (unfold sum_values; rewrite fold_add_count_sum; lia).
  pose proof (counts_within_total _ Hpos _ Hin) as Hc. cbn [snd] in Hc.
  rewrite <- Hsum. split; [apply in_nodup_dict_get; assumption|].
  split; [reflexivity | exact Hc].
Qed.

(** C10. The division of [get_top_10_states] never divides by zero: no
    run logs a [ZeroDivisionError]; an empty mapping returns before the
    division; a non-empty mapping has every count at least 1, hence a
    total of at least 1, and the percentages are computed. *)
Theorem percentage_division_is_safe :
  (forall file : option csv_rows,
      ~ In (LogError (ErrorProcessingCSV ZeroDivisionError))
           (fst (get_top_10_states file)))
  /\ (forall (rows : csv_rows) (m : Counter),
        state_counts_of rows = Ok m ->
        (m = [] ->
         exists msg, get_top_10_states (Some rows) = ([LogError msg], [])
                     /\ forall e, msg <> ErrorProcessingCSV e)
        /\ (m <> [] ->
            positive_counts m
            /\ 1 <= sum_values m
            /\ percentages (sum_values m) (most_common m 10)
               = Ok (map (entry_of (sum_values m)) (most_common m 10)))).
Proof.
  split.
  - intros [rows|]; [|cbn; intros [H|[]]; discriminate].
    destruct (normalized_fieldnames rows) as [fieldnames|e] eqn:Hf.
    + rewrite (get_top_10_states_paths rows fieldnames Hf).
      destruct (negb (str_in (lit "State") fieldnames));
        [cbn; intros [H|[]]; discriminate|].
      destruct (count_states fieldnames (tl rows) []) as [m|e] eqn:E.
      * destruct m; cbn; [intros [H|[]]; discriminate | tauto].
      * apply count_states_raises in E. subst e.
        cbn; intros [H|[]]; discriminate.
    + unfold get_top_10_states, get_top_10_states_try.
      cbn [open_read bind]. rewrite Hf. cbn [bind].
      destruct rows; [|discriminate]. injection Hf as <-.
      cbn; intros [H|[]]; discriminate.
  - intros rows m Hm. unfold state_counts_of in Hm.
    destruct (normalized_fieldnames rows) as [fieldnames|e] eqn:Hf;
      [|discriminate].
    cbn [bind] in Hm. split.
    + intros ->. rewrite (get_top_10_states_paths rows fieldnames Hf), Hm.
      destruct (negb (str_in (lit "State") fieldnames));
        eexists; (split; [reflexivity | discriminate]).
    + intros Hne. destruct (state_counts_invariant _ _ _ Hm) as [_ Hpos].
      pose proof (sum_values_positive _ Hpos Hne) as Hsum.
      repeat split; [exact Hpos | exact Hsum |].
      apply percentages_ok, ranked_counts_within_total, Hpos.
Qed.

(** ** The text pipeline *)

Lemma py_lower_app (U : unicode) (a b : pystr) :
  py_lower U (a ++ b) = py_lower U a ++ py_lower U b.
Proof. unfold py_lower. apply flat_map_app. Qed.

Lemma word_runs_separator (U : unicode) (c : N) (a b cur : pystr) :
  is_word U c = false ->
  word_runs U cur (a ++ c :: b) = word_runs U cur a ++ word_runs U [] b.
Proof.
  intros Hc. revert cur. induction a as [|x a IH]; intros cur; simpl.
  - rewrite Hc. reflexivity.
  - destruct (is_word U x); [apply IH|].
    rewrite IH, app_assoc. reflexivity.
Qed.

(** Tokens never straddle two joined lines: tokenizing the joined text
    gives the tokens of each line in turn. *)
Lemma findall_words_join (U : unicode) (ls : list pystr) :
  findall_words U (py_lower U (join_space ls)) = flat_map (line_tokens U) ls.
Proof.
  induction ls as [|l ls IH]; [reflexivity|].
  destruct ls as [|l' ls'].
  - simpl. rewrite app_nil_r. reflexivity.
  - change (join_space (l :: l' :: ls'))
      with (l ++ 32%N :: join_space (l' :: ls')).
    change (flat_map (line_tokens U) (l :: l' :: ls'))
      with (line_tokens U l ++ flat_map (line_tokens U) (l' :: ls')).
    rewrite <- IH. unfold line_tokens, findall_words.
    rewrite py_lower_app.
    change (py_lower U (32%N :: join_space (l' :: ls')))
      with (32%N :: py_lower U (join_space (l' :: ls'))).
    rewrite word_runs_separator by reflexivity.
    apply filter_app.
Qed.

Lemma lines_from_after {A : Type} (lines : list A) (i lo hi : Z) :
  lo <= i -> lines_from i lines lo hi = firstn (Z.to_nat (hi - i)) lines.
Proof.
  revert i. induction lines as [|l lines IH]; intros i Hi.
  - rewrite firstn_nil. reflexivity.
  - cbn [lines_from]. apply Z.leb_le in Hi as Hb. rewrite Hb. cbn [andb].
    rewrite IH by lia. destruct (i <? hi) eqn:E.
    + apply Z.ltb_lt in E.
      replace (Z.to_nat (hi - i)) with (S (Z.to_nat (hi - (i + 1)))) by lia.
      reflexivity.
    + apply Z.ltb_ge in E.
      replace (Z.to_nat (hi - i)) with O by lia.
      replace (Z.to_nat (hi - (i + 1))) with O by lia.
      reflexivity.
Qed.

Lemma lines_from_before {A : Type} (lines : list A) (i lo hi : Z) :
  i <= lo ->
  lines_from i lines lo hi
  = firstn (Z.to_nat (hi - lo)) (skipn (Z.to_nat (lo - i)) lines).
Proof.
  revert i. induction lines as [|l lines IH]; intros i Hi.
  - rewrite skipn_nil, firstn_nil. reflexivity.
  - destruct (Z.eq_dec i lo) as [->|Hne].
    + rewrite lines_from_after by lia.
      replace (Z.to_nat (lo - lo)) with O by lia. reflexivity.
    + cbn [lines_from].
      assert (Hb : (lo <=? i) = false) by (apply Z.leb_gt; lia).
      rewrite Hb. cbn [andb]. rewrite IH by lia.
      replace (Z.to_nat (lo - i)) with (S (Z.to_nat (lo - (i + 1)))) by lia.
      reflexivity.
Qed.

(** With a stop bound that is not negative, a slice holds the lines whose
    index lies between its start and its stop. *)
Lemma py_slice_range {A : Type} (lines : list A) (skip_lines stop_line : Z) :
  0 <= stop_line ->
  skip_lines <= Z.of_nat (List.length lines) ->
  py_slice lines skip_lines stop_line
  = lines_in_range lines
      (slice_start (Z.of_nat (List.length lines)) skip_lines) stop_line.
Proof.
  intros Hstop Hskip. unfold lines_in_range.
  set (len := Z.of_nat (List.length lines)) in *.
  assert (Hlo : slice_index len skip_lines = slice_start len skip_lines).
  { unfold slice_index, slice_start. destruct (skip_lines <? 0) eqn:E;
      [reflexivity|]. apply Z.ltb_ge in E. lia. }
  assert (Hlo0 : 0 <= slice_start len skip_lines <= len).
  { unfold slice_start. destruct (skip_lines <? 0) eqn:E.
    - apply Z.ltb_lt in E. lia.
    - apply Z.ltb_ge in E. lia. }
  rewrite lines_from_before by lia.
  unfold py_slice. fold len. rewrite Hlo.
  set (lo := slice_start len skip_lines) in *.
  replace (Z.to_nat (lo - 0)) with (Z.to_nat lo) by lia.
  assert (Hhi : slice_index len stop_line = Z.min stop_line len).
  { unfold slice_index. destruct (stop_line <? 0) eqn:E; [|reflexivity].
    apply Z.ltb_lt in E. lia. }
  rewrite Hhi. destruct (Z.le_gt_cases stop_line len) as [Hs|Hs].
  - rewrite Z.min_l by lia. reflexivity.
  - rewrite Z.min_r by lia.
    assert (Hl : List.length (skipn (Z.to_nat lo) lines) = Z.to_nat (len - lo)).
    { rewrite length_skipn. unfold len. lia. }
    rewrite !firstn_all2 by lia. reflexivity.
Qed.

Lemma slice_word_counts_spec (U : unicode) (lines : list pystr)
    (skip_lines stop_line : Z) (w : pystr) (c : Z) :
  In (w, c) (slice_word_counts U lines skip_lines stop_line) ->
  0 < c
  /\ c = occurrences w
           (flat_map (line_tokens U) (py_slice lines skip_lines stop_line)).
Proof.
  unfold slice_word_counts. rewrite findall_words_join.
  set (words := flat_map (line_tokens U) _). intros Hin.
  pose proof (counter_update_nodup words [] (NoDup_nil _)) as Hnd.
  pose proof (counter_update_positive words [] (Forall_nil _)) as Hpos.
  pose proof (in_nodup_dict_get _ _ _ Hnd Hin) as Hget.
  pose proof (counter_getitem_update words [] w) as Hcount.
  unfold counter_getitem at 1 in Hcount. rewrite Hget in Hcount.
  pose proof (dict_get_values pystr_eqb _ _ _ _ Hpos Hget) as Hc.
  cbn in Hcount. simpl in Hc. split; lia.
Qed.

(** C7, as the code has it. For a stop line that is not negative,
    [count_top_words] counts exactly the tokens of the lines whose index
    lies in [lo <= i < stop_line], where [lo] is [skip_lines] itself when
    that is not negative and some later line otherwise: every counted
    occurrence comes from a line of [skip_lines <= i < stop_line], and no
    other line contributes. *)
Theorem count_top_words_line_range :
  forall (U : unicode) (lines : list pystr) (top_n skip_lines stop_line : Z),
    0 <= stop_line ->
    exists lo : Z,
      skip_lines <= lo
      /\ (0 <= skip_lines -> lo = skip_lines)
      /\ forall (w : pystr) (c : Z),
          In (w, c)
             (snd (count_top_words U (Some lines) top_n skip_lines stop_line)) ->
          0 < c
          /\ c = occurrences w
                   (flat_map (line_tokens U)
                             (lines_in_range lines lo stop_line)).
Proof.
  intros U lines top_n skip_lines stop_line Hstop.
  unfold count_top_words, count_top_words_try. cbn [open_read bind].
  destruct (Z.of_nat (List.length lines) <? skip_lines) eqn:E.
  - exists skip_lines. repeat split; try lia; contradiction.
  - apply Z.ltb_ge in E.
    exists (slice_start (Z.of_nat (List.length lines)) skip_lines).
    unfold slice_start at 1 2.
    destruct (skip_lines <? 0) eqn:E0;
      [apply Z.ltb_lt in E0 | apply Z.ltb_ge in E0];
      (split; [lia|]); (split; [lia|]);
      intros w c Hin; cbn [snd] in Hin;
      apply most_common_incl, slice_word_counts_spec in Hin;
      rewrite py_slice_range in Hin by assumption; exact Hin.
Qed.

(** C8. A file with fewer lines than [skip_lines] is reported and gives
    an empty list; nothing is raised. *)
Theorem count_top_words_too_few_lines :
  forall (U : unicode) (lines : list pystr) (top_n skip_lines stop_line : Z),
    Z.of_nat (List.length lines) < skip_lines ->
    count_top_words U (Some lines) top_n skip_lines stop_line
    = ([LogError (FewerLines skip_lines)], []).
Proof.
  intros U lines top_n skip_lines stop_line H.
  unfold count_top_words, count_top_words_try. cbn [open_read bind].
  apply Z.ltb_lt in H. rewrite H. reflexivity.
Qed.

(** Both count pipelines return the ranking of their mapping. *)
Lemma ranking_of_count_top_words (U : unicode) (lines : list pystr)
    (top_n skip_lines stop_line : Z) :
  skip_lines <= Z.of_nat (List.length lines) ->
  snd (count_top_words U (Some lines) top_n skip_lines stop_line)
  = most_common (slice_word_counts U lines skip_lines stop_line) top_n.
Proof.
  intros H. unfold count_top_words, count_top_words_try.
  cbn [open_read bind]. apply Z.ltb_ge in H. rewrite H. reflexivity.
Qed.

Lemma ranking_of_get_top_10_states (rows : csv_rows)
    (fieldnames : list pystr) (m : Counter) :
  normalized_fieldnames rows = Ok fieldnames ->
  str_in (lit "State") fieldnames = true ->
  count_states fieldnames (tl rows) [] = Ok m ->
  map fst (snd (get_top_10_states (Some rows))) = most_common m 10.
Proof.
  intros Hf Hs Hm. rewrite (get_top_10_states_paths rows fieldnames Hf).
  rewrite Hs, Hm. cbn [negb]. destruct m as [|kv m]; [reflexivity|].
  cbn [snd]. rewrite map_map. unfold entry_of. cbn [fst].
  rewrite <- (map_id (most_common (kv :: m) 10)) at 2.
  apply map_ext. intros [s c]. reflexivity.
Qed.

(** ** The spreadsheet pipeline *)

Lemma cell_eqb_refl (a : cell) : cell_eqb a a = true.
Proof.
  destruct a; cbn; auto using Qeq_bool_refl, pystr_eqb_refl, Z.eqb_refl.
Qed.

Lemma cell_eqb_sym (a b : cell) : cell_eqb a b = cell_eqb b a.
Proof.
  destruct a, b; cbn;
    auto using Qeq_bool_comm, pystr_eqb_sym, Z.eqb_sym.
Qed.

Lemma cell_eqb_trans (a b c : cell) :
  cell_eqb a b = true -> cell_eqb b c = true -> cell_eqb a c = true.
Proof.
  destruct a, b; cbn; try discriminate; destruct c; cbn; try discriminate;
    try apply Qeq_bool_trans; try apply pystr_eqb_trans; auto.
  all: rewrite !Z.eqb_eq; congruence.
Qed.

Lemma py_gt_irrefl (a : cell) : py_gt a a = false.
Proof.
  unfold py_gt. destruct (cell_num a) as [x|]; [|reflexivity].
  assert (H : Qle_bool x x = true) by (apply Qle_bool_iff, Qle_refl).
  rewrite H. reflexivity.
Qed.

Lemma py_gt_true (a b : cell) :
  py_gt a b = true <->
  exists x y, cell_num a = Some x /\ cell_num b = Some y /\ (y < x)%Q.
Proof.
  unfold py_gt. split.
  - destruct (cell_num a) as [x|], (cell_num b) as [y|]; try discriminate.
    intros H. exists x, y. repeat split.
    apply Qnot_le_lt. intros Hle. apply Qle_bool_iff in Hle.
    rewrite Hle in H. discriminate.
  - intros (x & y & -> & -> & Hlt).
    destruct (Qle_bool x y) eqn:E; [|reflexivity].
    apply Qle_bool_iff in E. exfalso. exact (Qlt_not_le _ _ Hlt E).
Qed.

Lemma py_gt_false (a b : cell) (x y : Q) :
  cell_num a = Some x -> cell_num b = Some y ->
  py_gt a b = false <-> (x <= y)%Q.
Proof.
  intros Ha Hb. unfold py_gt. rewrite Ha, Hb.
  rewrite <- Qle_bool_iff. destruct (Qle_bool x y); cbn; split; congruence.
Qed.

(** A price not above the stored one stays below any price that beat the
    stored one. *)
Lemma py_gt_chain (a b c : cell) :
  is_number a = true ->
  py_gt a b = false -> py_gt c b = true ->
  py_gt a c = false /\ py_gt c a = true.
Proof.
  unfold is_number. intros Ha Hab Hcb.
  destruct (cell_num a) as [x|] eqn:Ex; [|discriminate].
  apply py_gt_true in Hcb. destruct Hcb as (z & y & Ez & Ey & Hlt).
  apply (py_gt_false a b x y Ex Ey) in Hab.
  assert (Hxz : (x < z)%Q) by (eapply Qle_lt_trans; eassumption).
  split.
  - apply (py_gt_false a c x z Ex Ez). apply Qlt_le_weak, Hxz.
  - apply py_gt_true. exists z, x. auto.
Qed.

Lemma update_highest_unfold (d : office_dict) (r : record) :
  update_highest d r =
  match dict_get cell_eqb d (rec_office r) with
  | None => dict_set cell_eqb d (rec_office r) (rec_payload r)
  | Some stored =>
      if py_gt (rec_price r) (snd stored)
      then dict_set cell_eqb d (rec_office r) (rec_payload r)
      else d
  end.
Proof.
  destruct r as [[[o n] c] p]. cbn.
  destruct (dict_get cell_eqb d o) as [[[n0 c0] p0]|]; reflexivity.
Qed.

Lemma valid_record_price (r : record) :
  valid_record r = true -> is_number (rec_price r) = true.
Proof.
  destruct r as [[[o n] c] p]. cbn [valid_record rec_price snd].
  rewrite !andb_true_iff. tauto.
Qed.

Lemma dict_get_cell_congr (d : office_dict) (a b : cell) :
  cell_eqb a b = true -> dict_get cell_eqb d a = dict_get cell_eqb d b.
Proof. exact (dict_get_congr cell_eqb cell_eqb_sym cell_eqb_trans d a b). Qed.

Lemma cell_get_set_eq (d : office_dict) (k k' : cell) (v : cell * cell * cell) :
  cell_eqb k k' = true ->
  dict_get cell_eqb (dict_set cell_eqb d k v) k' = Some v.
Proof. exact (dict_get_set_eq cell_eqb cell_eqb_sym cell_eqb_trans d k k' v). Qed.

Lemma cell_get_set_neq (d : office_dict) (k k' : cell) (v : cell * cell * cell) :
  cell_eqb k k' = false ->
  dict_get cell_eqb (dict_set cell_eqb d k v) k'
  = dict_get cell_eqb d k'.
Proof. exact (dict_get_set_neq cell_eqb cell_eqb_sym cell_eqb_trans d k k' v). Qed.

Lemma dict_get_update_other (d : office_dict) (r : record) (k : cell) :
  cell_eqb (rec_office r) k = false ->
  dict_get cell_eqb (update_highest d r) k = dict_get cell_eqb d k.
Proof.
  intros Hk. rewrite update_highest_unfold.
  destruct (dict_get cell_eqb d (rec_office r)) as [stored|].
  - destruct (py_gt (rec_price r) (snd stored)); [|reflexivity].
    apply cell_get_set_neq, Hk.
  - apply cell_get_set_neq, Hk.
Qed.

Lemma rec_payload_price (r : record) : snd (rec_payload r) = rec_price r.
Proof. destruct r as [[[o n] c] p]. reflexivity. Qed.

Lemma nth_error_snoc {A : Type} (l : list A) (a b : A) (j : nat) :
  nth_error (l ++ [a]) j = Some b ->
  ((j < List.length l)%nat /\ nth_error l j = Some b)
  \/ (j = List.length l /\ b = a).
Proof.
  intros H. destruct (Nat.lt_ge_cases j (List.length l)) as [Hj|Hj].
  - left. rewrite nth_error_app1 in H by exact Hj. auto.
  - right. rewrite nth_error_app2 in H by exact Hj.
    destruct (j - List.length l)%nat as [|m] eqn:E; simpl in H.
    + injection H as <-. split; [lia | reflexivity].
    + destruct m; discriminate.
Qed.

Lemma nth_error_lt {A : Type} (l : list A) (i : nat) (a : A) :
  nth_error l i = Some a -> (i < List.length l)%nat.
Proof. intros H. apply nth_error_Some. congruence. Qed.

Lemma tracks_step (recs : list record) (d : office_dict) (r : record) :
  Forall (fun r => valid_record r = true) recs ->
  valid_record r = true ->
  tracks recs d -> tracks (recs ++ [r]) (update_highest d r).
Proof.
  intros Hvalid Hr Hd k. specialize (Hd k).
  assert (Hnew : nth_error (recs ++ [r]) (List.length recs) = Some r).
  { rewrite nth_error_app2 by lia. rewrite Nat.sub_diag. reflexivity. }
  assert (Hnum : forall j r', nth_error recs j = Some r' ->
                              is_number (rec_price r') = true).
  { intros j r' Hj. apply valid_record_price.
    rewrite Forall_forall in Hvalid. apply Hvalid.
    eapply nth_error_In; eassumption. }
  destruct (cell_eqb (rec_office r) k) eqn:Hk.
  - (* the row is about office k *)
    rewrite <- (dict_get_cell_congr d _ _ Hk) in Hd.
    rewrite update_highest_unfold.
    destruct (dict_get cell_eqb d (rec_office r)) as [stored|] eqn:Hget.
    + destruct Hd as (i & r0 & Hi & Ho & Hp & Hall).
      destruct (py_gt (rec_price r) (snd stored)) eqn:Hgt.
      * rewrite (cell_get_set_eq d _ _ _ Hk).
        exists (List.length recs), r.
        split; [exact Hnew|]. split; [exact Hk|]. split; [reflexivity|].
        rewrite rec_payload_price. intros j r' Hj Ho'.
        apply nth_error_snoc in Hj. destruct Hj as [[Hlt Hj]|[-> ->]].
        -- destruct (Hall j r' Hj Ho') as [Hle _].
           destruct (py_gt_chain (rec_price r') (snd stored) (rec_price r)
                       (Hnum j r' Hj) Hle Hgt) as [H1 H2].
           split; [exact H1 | intros _; exact H2].
        -- split; [apply py_gt_irrefl | lia].
      * rewrite <- (dict_get_cell_congr d _ _ Hk), Hget.
        exists i, r0.
        split; [rewrite nth_error_app1 by (eapply nth_error_lt; eassumption);
                exact Hi|].
        split; [exact Ho|]. split; [exact Hp|].
        intros j r' Hj Ho'.
        apply nth_error_snoc in Hj. destruct Hj as [[Hlt Hj]|[-> ->]].
        -- exact (Hall j r' Hj Ho').
        -- split; [exact Hgt|]. apply nth_error_lt in Hi. lia.
    + rewrite (cell_get_set_eq d _ _ _ Hk).
      exists (List.length recs), r.
      split; [exact Hnew|]. split; [exact Hk|]. split; [reflexivity|].
      rewrite rec_payload_price. intros j r' Hj Ho'.
      apply nth_error_snoc in Hj. destruct Hj as [[Hlt Hj]|[-> ->]].
      * rewrite (Hd r') in Ho'; [discriminate|].
        eapply nth_error_In; eassumption.
      * split; [apply py_gt_irrefl | lia].
  - (* the row is about another office *)
    rewrite (dict_get_update_other d r k Hk).
    destruct (dict_get cell_eqb d k) as [stored|].
    + destruct Hd as (i & r0 & Hi & Ho & Hp & Hall).
      exists i, r0.
      split; [rewrite nth_error_app1 by (eapply nth_error_lt; eassumption);
              exact Hi|].
      split; [exact Ho|]. split; [exact Hp|].
      intros j r' Hj Ho'.
      apply nth_error_snoc in Hj. destruct Hj as [[Hlt Hj]|[-> ->]].
      * exact (Hall j r' Hj Ho').
      * congruence.
    + intros r' Hin. apply in_app_or in Hin. destruct Hin as [Hin|[<-|[]]].
      * apply Hd, Hin.
      * exact Hk.
Qed.

Lemma tracks_fold (recs2 recs1 : list record) (d : office_dict) :
  Forall (fun r => valid_record r = true) recs1 ->
  Forall (fun r => valid_record r = true) recs2 ->
  tracks recs1 d ->
  tracks (recs1 ++ recs2) (fold_left update_highest recs2 d).
Proof.
  revert recs1 d. induction recs2 as [|r recs2 IH]; intros recs1 d H1 H2 Hd.
  - rewrite app_nil_r. exact Hd.
  - inversion H2 as [|? ? Hr H2']; subst. cbn [fold_left].
    replace (recs1 ++ r :: recs2) with ((recs1 ++ [r]) ++ recs2)
      by (rewrite <- app_assoc; reflexivity).
    apply IH; [|exact H2'|].
    + apply Forall_app. split; [exact H1 | repeat constructor; exact Hr].
    + apply tracks_step; assumption.
Qed.

Lemma scan_rows_fold (i1 i2 i3 i4 : nat) (rows : list (list cell))
    (recs : list record) (d : office_dict) :
  read_all (read_record i1 i2 i3 i4) rows = Ok recs ->
  scan_rows i1 i2 i3 i4 rows d
  = Ok (fold_left update_highest (filter valid_record recs) d).
Proof.
  revert recs d. induction rows as [|row rows IH]; intros recs d H.
  - injection H as <-. reflexivity.
  - cbn [read_all scan_rows] in *.
    destruct (read_record i1 i2 i3 i4 row) as [r|e]; [|discriminate].
    cbn [bind] in *.
    destruct (read_all (read_record i1 i2 i3 i4) rows) as [rs|e];
      [|discriminate].
    cbn [bind] in H. injection H as <-.
    rewrite (IH rs _ eq_refl). cbn [filter].
    destruct (valid_record r); reflexivity.
Qed.

Lemma find_highest_price_nsn_fold (sh : sheet) (recs : list record) :
  has_required_columns (first_row sh) = true ->
  sheet_records sh = Ok recs ->
  find_highest_price_nsn (Some sh)
  = ([], fold_left update_highest (filter valid_record recs) []).
Proof.
  intros Hcols Hrecs.
  unfold find_highest_price_nsn, find_highest_price_nsn_try.
  unfold sheet_records in Hrecs. cbn [open_read bind]. rewrite Hcols.
  cbn [negb].
  destruct (index_of (CStr (lit "NSN")) (first_row sh)) as [i1|];
    [|discriminate]; cbn [bind] in *.
  destruct (index_of (CStr (lit "rep_office")) (first_row sh)) as [i2|];
    [|discriminate]; cbn [bind] in *.
  destruct (index_of (CStr (lit "common_name")) (first_row sh)) as [i3|];
    [|discriminate]; cbn [bind] in *.
  destruct (index_of (CStr (lit "Price")) (first_row sh)) as [i4|];
    [|discriminate]; cbn [bind] in *.
  rewrite (scan_rows_fold _ _ _ _ _ _ _ Hrecs). reflexivity.
Qed.

Lemma mapping_tracks_records (recs : list record) :
  Forall (fun r => valid_record r = true) recs ->
  tracks recs (fold_left update_highest recs []).
Proof.
  intros Hvalid.
  assert (H0 : tracks [] ([] : office_dict)) by (intros k' r' []).
  exact (tracks_fold recs [] [] (Forall_nil _) Hvalid H0).
Qed.

Lemma filter_valid_forall (recs : list record) :
  Forall (fun r => valid_record r = true) (filter valid_record recs).
Proof. apply Forall_forall. intros r Hr. apply filter_In in Hr. apply Hr. Qed.

(** Every office with a valid row is a key of the mapping, and the
    mapping holds the tuple of its earliest row of highest price. *)
Lemma valid_office_is_stored (recs : list record) (r : record) :
  Forall (fun r => valid_record r = true) recs ->
  In r recs ->
  exists stored,
    dict_get cell_eqb (fold_left update_highest recs []) (rec_office r)
    = Some stored
    /\ earliest_highest recs (rec_office r) stored.
Proof.
  intros Hvalid Hin.
  pose proof (mapping_tracks_records recs Hvalid (rec_office r)) as Ht.
  destruct (dict_get cell_eqb (fold_left update_highest recs [])
              (rec_office r)) as [stored|].
  - exists stored. split; [reflexivity | exact Ht].
  - specialize (Ht r Hin). rewrite cell_eqb_refl in Ht. discriminate.
Qed.

(** C4. The stored tuple of a rep_office is replaced by a later row's
    tuple exactly when that row's price is strictly greater than the
    stored price, and the first row of an office takes the empty slot; so
    after any sequence of valid rows each office holds the tuple of its
    earliest row of highest price, in the loop and in the mapping that
    [find_highest_price_nsn] returns; and that mapping has an entry for
    the office of every valid row of the sheet. *)
Theorem highest_price_strict_replacement :
  (forall (d : office_dict) (r : record),
      match dict_get cell_eqb d (rec_office r) with
      | None =>
          dict_get cell_eqb (update_highest d r) (rec_office r)
          = Some (rec_payload r)
      | Some stored =>
          if py_gt (rec_price r) (snd stored)
          then dict_get cell_eqb (update_highest d r) (rec_office r)
               = Some (rec_payload r)
          else update_highest d r = d
      end)
  /\ (forall (recs : list record) (k : cell) (stored : cell * cell * cell),
        Forall (fun r => valid_record r = true) recs ->
        dict_get cell_eqb (fold_left update_highest recs []) k = Some stored ->
        earliest_highest recs k stored)
  /\ (forall (sh : sheet) (recs : list record)
             (k : cell) (stored : cell * cell * cell),
        has_required_columns (first_row sh) = true ->
        sheet_records sh = Ok recs ->
        dict_get cell_eqb (snd (find_highest_price_nsn (Some sh))) k
          = Some stored ->
        earliest_highest (filter valid_record recs) k stored)
  /\ (forall (sh : sheet) (recs : list record) (r : record),
        has_required_columns (first_row sh) = true ->
        sheet_records sh = Ok recs ->
        In r recs ->
        valid_record r = true ->
        exists stored : cell * cell * cell,
          dict_get cell_eqb (snd (find_highest_price_nsn (Some sh)))
                   (rec_office r)
          = Some stored
          /\ earliest_highest (filter valid_record recs) (rec_office r)
                              stored).
Proof.
  assert (Hfold :
    forall (recs : list record) (k : cell) (stored : cell * cell * cell),
      Forall (fun r => valid_record r = true) recs ->
      dict_get cell_eqb (fold_left update_highest recs []) k = Some stored ->
      earliest_highest recs k stored).
  { intros recs k stored Hvalid Hget.
    pose proof (mapping_tracks_records recs Hvalid k) as Ht.
    rewrite Hget in Ht. exact Ht. }
  split; [|split; [exact Hfold|split]].
  - intros d r. rewrite update_highest_unfold.
    destruct (dict_get cell_eqb d (rec_office r)) as [stored|].
    + destruct (py_gt (rec_price r) (snd stored)); [|reflexivity].
      apply cell_get_set_eq, cell_eqb_refl.
    + apply cell_get_set_eq, cell_eqb_refl.
  - intros sh recs k stored Hcols Hrecs Hget.
    rewrite (find_highest_price_nsn_fold sh recs Hcols Hrecs) in Hget.
    cbn [snd] in Hget. apply Hfold; [|exact Hget].
    apply filter_valid_forall.
  - intros sh recs r Hcols Hrecs Hin Hvalid.
    rewrite (find_highest_price_nsn_fold sh recs Hcols Hrecs). cbn [snd].
    apply valid_office_is_stored; [apply filter_valid_forall|].
    apply filter_In. split; assumption.
Qed.

(** *** The order of the report *)


Lemma dict_keys_update (d : office_dict) (r : record) :
  dict_keys (update_highest d r)
  = if dict_mem cell_eqb d (rec_office r) then dict_keys d
    else dict_keys d ++ [rec_office r].
Proof.
  rewrite update_highest_unfold. unfold dict_mem at 1.
  destruct (dict_get cell_eqb d (rec_office r)) as [stored|] eqn:Hget.
  - destruct (py_gt (rec_price r) (snd stored)); [|reflexivity].
    rewrite dict_keys_set. unfold dict_mem. rewrite Hget. reflexivity.
  - rewrite dict_keys_set. unfold dict_mem. rewrite Hget. reflexivity.
Qed.

Lemma filter_andb {A : Type} (f g : A -> bool) (l : list A) :
  filter f (filter g l) = filter (fun x => f x && g x) l.
Proof.
  induction l as [|x l IH]; [reflexivity|]. cbn [filter].
  destruct (g x); cbn [filter]; rewrite ?andb_true_r, ?andb_false_r, IH;
    reflexivity.
Qed.


(** *** The lines of the report *)

Lemma entries_of_excel_report (lines : list excel_entry) :
  flat_map (fun c : chunk excel_entry =>
              match c with Entry e => [e] | Line _ => [] end)
           (excel_report lines)
  = lines.
Proof.
  unfold excel_report. cbn [app flat_map].
  induction lines as [|line lines IH]; [reflexivity|].
  cbn [map flat_map app]. rewrite IH. reflexivity.
Qed.

(** The report holds the lines written before the loop ended. *)
Lemma report_entries_process_excel_file (w : excel_world) :
  report_entries (process_excel_file w)
  = if excel_out_dir w
    then fst (write_entries (snd (find_highest_price_nsn (nsn_xlsx w))))
    else [].
Proof.
  unfold report_entries, process_excel_file.
  destruct (find_highest_price_nsn (nsn_xlsx w)) as [log d]. cbn [snd].
  destruct (excel_out_dir w); [|reflexivity].
  destruct (write_entries d) as [lines [e|]]; cbn [run_written fst];
    apply entries_of_excel_report.
Qed.









(** A line shows the key it was made from, or no office at all. *)
Lemma format_entry_office (item : cell * (cell * cell * cell))
    (line : excel_entry) :
  format_entry item = Ok line ->
  shown_office line = [fst item] \/ shown_office line = [].
Proof.
  destruct item as [k [[n c] p]]. unfold format_entry.
  destruct (format_field k) as [tk|e] eqn:Ek; [|discriminate].
  destruct (format_field n) as [tn|e]; [|discriminate].
  destruct (format_field c) as [tc|e]; [|discriminate].
  destruct (format_price p) as [tp|e]; [|discriminate].
  cbn [bind]. intros H. injection H as <-.
  unfold shown_office. cbn [fst].
  destruct k; cbn in Ek; try discriminate; injection Ek as <-; auto.
Qed.

Lemma written_offices_incl (d : office_dict) (k : cell) :
  In k (flat_map shown_office (fst (write_entries d))) -> In k (dict_keys d).
Proof.
  induction d as [|item d IH]; cbn [write_entries]; [intros []|].
  destruct (format_entry item) as [line|e] eqn:Ef; [|intros []].
  destruct (write_entries d) as [lines raised]. cbn [fst flat_map] in *.
  intros H. apply in_app_or in H. cbn [dict_keys map].
  destruct H as [H|H]; [|right; exact (IH H)].
  destruct (format_entry_office item line Ef) as [Ho|Ho]; rewrite Ho in H.
  - destruct H as [<-|[]]. left. reflexivity.
  - destruct H.
Qed.

Lemma written_offices_distinct (d : office_dict) :
  distinct_offices (dict_keys d) ->
  distinct_offices (flat_map shown_office (fst (write_entries d))).
Proof.
  unfold distinct_offices.
  induction d as [|item d IH]; cbn [write_entries]; [intros _; constructor|].
  cbn [dict_keys map]. intros H. inversion H as [|? ? Hk Hd]; subst.
  destruct (format_entry item) as [line|e] eqn:Ef; [|constructor].
  pose proof (written_offices_incl d) as Hincl. specialize (IH Hd).
  destruct (write_entries d) as [lines raised]. cbn [fst flat_map] in *.
  destruct (format_entry_office item line Ef) as [Ho|Ho]; rewrite Ho;
    cbn [app]; [|exact IH].
  constructor; [|exact IH].
  apply Forall_forall. intros k' Hk'. rewrite Forall_forall in Hk.
  apply Hk, Hincl, Hk'.
Qed.


(** ** Sample runs *)

Example scenario_a_ranking :
  get_top_10_states (Some scenario_a_rows)
  = ([], [(lit "TX", 2, float_percentage 2 3);
          (lit "CA", 1, float_percentage 1 3)]).
Proof. reflexivity. Qed.

(** Two thirds of a hundred, rounded twice: 66.66666666666666. *)
Example two_thirds_in_floats :
  float_is (float_percentage 2 3) (2345624805922133 # 35184372088832) = true.
Proof. vm_compute. reflexivity. Qed.

Example eighteen_of_25_is_exact :
  float_is (float_percentage 18 25) 72 = true.
Proof. vm_compute. reflexivity. Qed.

Example true_division_errors :
  truediv 1 0 = Raise ZeroDivisionError
  /\ truediv float_overflow_bound 1 = Raise OverflowError
  /\ truediv 0 (-5) = Ok (SpecFloat.S754_zero true).
Proof. repeat split; vm_compute; reflexivity. Qed.

Example scenario_a_mapping :
  state_counts_of scenario_a_rows = Ok scenario_a_counts.
Proof. reflexivity. Qed.

(** A row shorter than the header leaves "State" at [None], and
    [None.strip()] ends the run in the handler. *)
Example short_row_is_an_error :
  get_top_10_states (Some [[lit "Bank"; lit "State"]; [lit "First"]])
  = ([LogError (ErrorProcessingCSV AttributeError)], []).
Proof. reflexivity. Qed.

Example empty_file_is_an_error :
  get_top_10_states (Some [])
  = ([LogError (ErrorProcessingCSV TypeError)], []).
Proof. reflexivity. Qed.

Example header_is_normalized :
  normalize (32 :: nbsp :: lit "Sta" ++ nbsp :: lit "te ")%N = lit "State".
Proof. reflexivity. Qed.

Example ranking_keeps_first_of_a_tie :
  most_common sample_counts 3 = [(lit "b", 3); (lit "c", 2); (lit "a", 1)].
Proof. reflexivity. Qed.

Example ranking_of_nothing :
  most_common sample_counts (-1) = [] /\ most_common sample_counts 0 = [].
Proof. split; reflexivity. Qed.

Example tokens_of_a_line :
  line_tokens ascii_unicode (lit "We the People's x2 of_the U.S.")
  = [lit "we"; lit "the"; lit "people"; lit "s"; lit "u"; lit "s"].
Proof. reflexivity. Qed.

Example slice_counts_from_the_end :
  py_slice two_lines (-1) 666 = [lit "gamma"].
Proof. reflexivity. Qed.

(** A date prints the format specification in place of its value; a
    duration cannot be formatted; a price of 2^1024 does not fit a
    float. *)
Example date_prints_the_format_specification :
  format_entry (CDate 45000, (CStr (lit "n1"), CStr (lit "bolt"), CInt 10))
  = Ok (FormatSpec, Padded (CStr (lit "n1")), Padded (CStr (lit "bolt")),
        TwoDecimals (CInt 10)).
Proof. vm_compute. reflexivity. Qed.

Example duration_cannot_be_padded :
  format_entry (CStr (lit "A"), (CStr (lit "n1"), CDuration 60, CInt 10))
  = Raise TypeError.
Proof. reflexivity. Qed.

Example huge_price_overflows :
  format_entry (CStr (lit "A"), (CStr (lit "n1"), CStr (lit "bolt"),
                                 CInt (2 ^ 1024)))
  = Raise OverflowError.
Proof. vm_compute. reflexivity. Qed.

Example scenario_b_mapping :
  fold_left update_highest scenario_b_records []
  = [ (CStr (lit "A"), (CStr (lit "n2"), CStr (lit "nut"), CInt 25));
      (CStr (lit "B"), (CStr (lit "n3"), CStr (lit "gear"), CInt 5)) ].
Proof. reflexivity. Qed.

(** On a tie the earlier row stays. *)
Example tie_keeps_the_earlier_row :
  update_highest
    [(CStr (lit "A"), (CStr (lit "n1"), CStr (lit "bolt"), CInt 10))]
    (CStr (lit "A"), CStr (lit "n2"), CStr (lit "nut"), CFloat (10 # 1))
  = [(CStr (lit "A"), (CStr (lit "n1"), CStr (lit "bolt"), CInt 10))].
Proof. reflexivity. Qed.

(** ** The claims on the sample inputs *)

(** C1, as stated, fails: with the header "state_name" only, the report
    file is written all the same. *)
Lemma schema_failure_still_writes_file :
  normalized_fieldnames scenario_c_rows = Ok [lit "state_name"]
  /\ str_in (lit "State") [lit "state_name"] = false
  /\ run_written (process_csv_file scenario_c_world) = Some (csv_report [])
  /\ run_written (process_csv_file scenario_c_world) <> None.
Proof. repeat split; try reflexivity. discriminate. Qed.

(** The file with the header "state_name" only: the error is logged and
    the report holds no entry. *)
Lemma schema_failure_writes_empty_report_witness :
  fdic_csv scenario_c_world = Some scenario_c_rows
  /\ normalized_fieldnames scenario_c_rows = Ok [lit "state_name"]
  /\ str_in (lit "State") [lit "state_name"] = false
  /\ get_top_10_states (Some scenario_c_rows)
     = ([LogError (MissingStateColumn [lit "state_name"])], [])
  /\ run_written (process_csv_file scenario_c_world)
     = (if csv_out_dir scenario_c_world then Some (csv_report []) else None)
  /\ report_entries (process_csv_file scenario_c_world) = [].
Proof.
  split; [reflexivity|]. split; [reflexivity|]. split; [reflexivity|].
  exact (schema_failure_writes_empty_report scenario_c_world scenario_c_rows
           [lit "state_name"] eq_refl eq_refl eq_refl).
Defined.

(** C2, as stated, fails: 7 records of 25 give the float
    28.000000000000004, which is not 100 * 7 / 25, neither as a rational
    nor as the float that dividing 100 * 7 by 25 gives. *)
Lemma percentage_is_not_exact :
  state_counts_of seven_of_25_rows = Ok [(lit "A", 7); (lit "B", 18)]
  /\ In (lit "A", 7, float_percentage 7 25)
        (snd (get_top_10_states (Some seven_of_25_rows)))
  /\ float_is (float_percentage 7 25) (7881299347898369 # 281474976710656)
     = true
  /\ float_is (float_percentage 7 25)
              (inject_Z 100 * inject_Z 7 / inject_Z 25)%Q = false
  /\ float_percentage 7 25 <> rounded_quotient (100 * 7) 25.
Proof.
  split; [vm_compute; reflexivity|].
  split; [vm_compute; right; left; reflexivity|].
  split; [vm_compute; reflexivity|].
  split; [vm_compute; reflexivity|].
  vm_compute. discriminate.
Qed.

(** Rows TX, TX, CA: TX holds 2 of the 3 records. *)
Lemma percentage_of_whole_population_witness :
  state_counts_of scenario_a_rows = Ok scenario_a_counts
  /\ In (lit "TX", 2, float_percentage 2 3)
        (snd (get_top_10_states (Some scenario_a_rows)))
  /\ dict_get pystr_eqb scenario_a_counts (lit "TX") = Some 2
  /\ float_percentage 2 3 = float_percentage 2 (count_sum scenario_a_counts)
  /\ 1 <= 2 <= count_sum scenario_a_counts.
Proof.
  split; [reflexivity|]. split; [left; reflexivity|].
  exact (percentage_of_whole_population scenario_a_rows
           scenario_a_counts (lit "TX") 2 (float_percentage 2 3)
           eq_refl (or_introl eq_refl)).
Defined.

(** Rows TX, TX, CA: the counts are positive and the total is 3. *)
Lemma percentage_division_is_safe_witness :
  state_counts_of scenario_a_rows = Ok scenario_a_counts
  /\ scenario_a_counts <> []
  /\ positive_counts scenario_a_counts
  /\ 1 <= sum_values scenario_a_counts
  /\ percentages (sum_values scenario_a_counts)
                 (most_common scenario_a_counts 10)
     = Ok (map (entry_of (sum_values scenario_a_counts))
               (most_common scenario_a_counts 10)).
Proof.
  split; [reflexivity|]. split; [discriminate|].
  exact (proj2 (proj2 percentage_division_is_safe scenario_a_rows
                  scenario_a_counts eq_refl)
               ltac:(discriminate)).
Defined.

(** The top two of a:1, b:3, c:2, d:1 leave a:1 out, below c:2. *)
Lemma most_common_dominates_rest_witness :
  In (lit "c", 2) (most_common sample_counts 2)
  /\ In (lit "a", 1) sample_counts
  /\ ~ In (lit "a", 1) (most_common sample_counts 2)
  /\ snd (lit "a", 1) <= snd (lit "c", 2).
Proof.
  assert (H1 : In (lit "c", 2) (most_common sample_counts 2))
    by (right; left; reflexivity).
  assert (H2 : In (lit "a", 1) sample_counts) by (left; reflexivity).
  assert (H3 : ~ In (lit "a", 1) (most_common sample_counts 2))
    by (intros [H|[H|[]]]; discriminate).
  split; [exact H1|]. split; [exact H2|]. split; [exact H3|].
  exact (most_common_dominates_rest sample_counts 2 _ _ H1 H2 H3).
Defined.

(** C7, as stated, fails for a negative stop line: with [stop_line = -1]
    the first of two lines is counted although no index lies in
    [0 <= i < -1]. *)
Lemma count_top_words_negative_stop_line :
  snd (count_top_words ascii_unicode (Some two_lines) 50 0 (-1))
  = [(lit "alpha", 1); (lit "beta", 1)]
  /\ lines_in_range two_lines 0 (-1) = [].
Proof. split; reflexivity. Qed.

(** The first of two lines, with [skip_lines = 0] and [stop_line = 1]. *)
Lemma count_top_words_line_range_witness :
  0 <= 1
  /\ exists lo : Z,
      0 <= lo
      /\ (0 <= 0 -> lo = 0)
      /\ forall (w : pystr) (c : Z),
          In (w, c) (snd (count_top_words ascii_unicode (Some two_lines) 50 0 1)) ->
          0 < c
          /\ c = occurrences w
                   (flat_map (line_tokens ascii_unicode)
                             (lines_in_range two_lines lo 1)).
Proof.
  split; [lia|].
  exact (count_top_words_line_range ascii_unicode two_lines 50 0 1
           ltac:(lia)).
Defined.

(** Two lines against the default [skip_lines = 128]. *)
Lemma count_top_words_too_few_lines_witness :
  Z.of_nat (List.length two_lines) < 128
  /\ count_top_words ascii_unicode (Some two_lines) 50 128 666
     = ([LogError (FewerLines 128)], []).
Proof.
  split; [reflexivity|].
  exact (count_top_words_too_few_lines ascii_unicode two_lines 50 128 666
           eq_refl).
Defined.

(** Office A at prices 10 then 25: the mapping [find_highest_price_nsn]
    returns holds the row priced 25 for it. *)
Lemma highest_price_strict_replacement_witness :
  has_required_columns (first_row scenario_b_sheet) = true
  /\ sheet_records scenario_b_sheet = Ok scenario_b_records
  /\ In (CStr (lit "A"), CStr (lit "n1"), CStr (lit "bolt"), CInt 10)
        scenario_b_records
  /\ valid_record (CStr (lit "A"), CStr (lit "n1"), CStr (lit "bolt"), CInt 10)
     = true
  /\ exists stored : cell * cell * cell,
       dict_get cell_eqb (snd (find_highest_price_nsn (Some scenario_b_sheet)))
                (CStr (lit "A"))
       = Some stored
       /\ stored = (CStr (lit "n2"), CStr (lit "nut"), CInt 25)
       /\ earliest_highest (filter valid_record scenario_b_records)
                           (CStr (lit "A")) stored.
Proof.
  split; [reflexivity|]. split; [reflexivity|].
  split; [left; reflexivity|]. split; [reflexivity|].
  destruct (proj2 (proj2 (proj2 highest_price_strict_replacement))
              scenario_b_sheet scenario_b_records
              (CStr (lit "A"), CStr (lit "n1"), CStr (lit "bolt"), CInt 10)
              eq_refl eq_refl (or_introl eq_refl) eq_refl)
    as (stored & Hget & Hearliest).
  exists stored. split; [exact Hget|]. split; [|exact Hearliest].
  vm_compute in Hget. injection Hget as <-. reflexivity.
Defined.



(** * Further properties *)

(** ** Size, order and keys of a ranking *)

Lemma most_common_length (m : Counter) (n : Z) :
  List.length (most_common m n) = Nat.min (Z.to_nat n) (List.length m).
Proof.
  unfold most_common. destruct (n <=? 0) eqn:E.
  - apply Z.leb_le in E. replace (Z.to_nat n) with O by lia. reflexivity.
  - rewrite length_firstn, <- (Permutation_length (sorted_desc_perm m)).
    reflexivity.
Qed.

Lemma most_common_sorted (m : Counter) (n : Z) :
  StronglySorted desc (most_common m n).
Proof.
  unfold most_common. destruct (n <=? 0); [constructor|].
  apply firstn_sorted, sorted_desc_sorted.
Qed.

Lemma nodup_firstn {A : Type} (k : nat) (l : list A) :
  NoDup l -> NoDup (firstn k l).
Proof.
  intros H. rewrite <- (firstn_skipn k l) in H.
  exact (NoDup_app_remove_r _ _ H).
Qed.

Lemma most_common_nodup (m : Counter) (n : Z) :
  NoDup (dict_keys m) -> NoDup (map fst (most_common m n)).
Proof.
  intros H. unfold most_common. destruct (n <=? 0); [constructor|].
  rewrite <- firstn_map. apply nodup_firstn.
  eapply Permutation_NoDup; [|exact H].
  apply Permutation_map, sorted_desc_perm.
Qed.

Lemma map_fst_entry_of (total : Z) (l : list (pystr * Z)) :
  map fst (map (entry_of total) l) = l.
Proof.
  rewrite map_map. unfold entry_of. cbn [fst].
  rewrite <- (map_id l) at 2. apply map_ext. intros [s c]. reflexivity.
Qed.

(** Every run of [get_top_10_states] ends in one of two ways: one error
    line and nothing returned, or no log line and the ranked entries of a
    mapping that is not empty. *)
Lemma get_top_10_states_outcome (file : option csv_rows) :
  (exists msg, get_top_10_states file = ([LogError msg], []))
  \/ (exists rows fieldnames m,
         file = Some rows
         /\ normalized_fieldnames rows = Ok fieldnames
         /\ str_in (lit "State") fieldnames = true
         /\ count_states fieldnames (tl rows) [] = Ok m
         /\ m <> []
         /\ get_top_10_states file
            = ([], map (entry_of (sum_values m)) (most_common m 10))).
Proof.
  destruct file as [rows|]; [|left; eexists; reflexivity].
  destruct (normalized_fieldnames rows) as [fieldnames|e] eqn:Hf.
  - rewrite (get_top_10_states_paths rows fieldnames Hf).
    destruct (str_in (lit "State") fieldnames) eqn:Hs; cbn [negb];
      [|left; eexists; reflexivity].
    destruct (count_states fieldnames (tl rows) []) as [m|e] eqn:Hm;
      [|left; eexists; reflexivity].
    destruct m as [|kv m]; [left; eexists; reflexivity|].
    right. exists rows, fieldnames, (kv :: m).
    repeat split; (reflexivity || assumption || discriminate).
  - left. unfold get_top_10_states, get_top_10_states_try.
    cbn [open_read bind]. rewrite Hf. eexists; reflexivity.
Qed.

(** X2. The entries [get_top_10_states] returns are in descending order
    of count and name each state once. *)
Theorem get_top_10_states_sorted_distinct :
  forall file : option csv_rows,
    StronglySorted desc (map fst (snd (get_top_10_states file)))
    /\ NoDup (map fst (map fst (snd (get_top_10_states file)))).
Proof.
  intros file. destruct (get_top_10_states_outcome file)
    as [[msg ->]|(rows & fn & m & _ & _ & _ & Hm & _ & ->)].
  - cbn. split; constructor.
  - cbn [snd]. rewrite map_fst_entry_of. split.
    + apply most_common_sorted.
    + apply most_common_nodup. apply (state_counts_invariant _ _ _ Hm).
Qed.

(** X3. [get_top_10_states] logs nothing exactly when it returns at least
    one entry; otherwise it logs one error line and returns nothing. *)
Theorem get_top_10_states_error_or_entries :
  forall file : option csv_rows,
    (fst (get_top_10_states file) = []
     /\ snd (get_top_10_states file) <> [])
    \/ (exists msg, fst (get_top_10_states file) = [LogError msg]
                    /\ snd (get_top_10_states file) = []).
Proof.
  intros file. destruct (get_top_10_states_outcome file)
    as [[msg ->]|(rows & fn & m & _ & _ & _ & _ & Hne & ->)].
  - right. exists msg. split; reflexivity.
  - left. split; [reflexivity|]. cbn [snd]. intros H.
    apply (f_equal (@List.length _)) in H.
    rewrite length_map, most_common_length in H.
    destruct m; [congruence|]. cbn in H. lia.
Qed.

(** X4. [count_top_words] returns as many entries as the slice has
    distinct words, up to [top_n], and none when [top_n] is not
    positive. *)
Theorem count_top_words_size :
  forall (U : unicode) (lines : list pystr) (top_n skip_lines stop_line : Z),
    skip_lines <= Z.of_nat (List.length lines) ->
    List.length (snd (count_top_words U (Some lines) top_n skip_lines stop_line))
    = Nat.min (Z.to_nat top_n)
              (List.length (slice_word_counts U lines skip_lines stop_line)).
Proof.
  intros U lines top_n skip_lines stop_line H.
  rewrite (ranking_of_count_top_words U lines top_n skip_lines stop_line H).
  apply most_common_length.
Qed.

Lemma count_top_words_outcome (U : unicode) (file : option (list pystr))
    (top_n skip_lines stop_line : Z) :
  (exists msg, count_top_words U file top_n skip_lines stop_line
               = ([LogError msg], []))
  \/ (exists lines,
         file = Some lines
         /\ skip_lines <= Z.of_nat (List.length lines)
         /\ count_top_words U file top_n skip_lines stop_line
            = ([], most_common
                     (slice_word_counts U lines skip_lines stop_line) top_n)).
Proof.
  destruct file as [lines|]; [|left; eexists; reflexivity].
  unfold count_top_words, count_top_words_try. cbn [open_read bind].
  destruct (Z.of_nat (List.length lines) <? skip_lines) eqn:E.
  - left. eexists; reflexivity.
  - right. exists lines. apply Z.ltb_ge in E. repeat split; assumption.
Qed.

(** X5. The entries [count_top_words] returns are in descending order of
    count, name each word once, and every count is positive. *)
Theorem count_top_words_sorted_distinct :
  forall (U : unicode) (file : option (list pystr))
         (top_n skip_lines stop_line : Z),
    StronglySorted desc
      (snd (count_top_words U file top_n skip_lines stop_line))
    /\ NoDup (map fst (snd (count_top_words U file top_n skip_lines stop_line)))
    /\ Forall (fun e => 0 < snd e)
              (snd (count_top_words U file top_n skip_lines stop_line)).
Proof.
  intros U file top_n skip_lines stop_line.
  destruct (count_top_words_outcome U file top_n skip_lines stop_line)
    as [[msg ->]|(lines & _ & _ & ->)].
  - cbn. repeat split; constructor.
  - cbn [snd]. split; [apply most_common_sorted|]. split.
    + apply most_common_nodup. unfold slice_word_counts.
      apply counter_update_nodup. constructor.
    + apply Forall_forall. intros [w c] Hin.
      apply most_common_incl, slice_word_counts_spec in Hin. apply Hin.
Qed.

(** X6. With a [top_n] no smaller than the number of distinct words,
    [count_top_words] returns every word of the slice with its count, no
    more and no less. *)
Theorem count_top_words_returns_all :
  forall (U : unicode) (lines : list pystr) (top_n skip_lines stop_line : Z),
    skip_lines <= Z.of_nat (List.length lines) ->
    Z.of_nat (List.length (slice_word_counts U lines skip_lines stop_line))
      <= top_n ->
    Permutation (slice_word_counts U lines skip_lines stop_line)
                (snd (count_top_words U (Some lines) top_n skip_lines stop_line)).
Proof.
  intros U lines top_n skip_lines stop_line H Hn.
  rewrite (ranking_of_count_top_words U lines top_n skip_lines stop_line H).
  set (m := slice_word_counts U lines skip_lines stop_line) in *.
  unfold most_common. destruct (top_n <=? 0) eqn:E.
  - apply Z.leb_le in E. destruct m; [constructor | cbn in Hn; lia].
  - rewrite firstn_all2; [apply sorted_desc_perm|].
    rewrite <- (Permutation_length (sorted_desc_perm m)). lia.
Qed.

(** ** Header names *)

Lemma lstrip_spaces (ws s : pystr) :
  forallb isspace ws = true -> lstrip (ws ++ s) = lstrip s.
Proof.
  induction ws as [|c ws IH]; [reflexivity|]. cbn [forallb app lstrip].
  intros H. apply andb_true_iff in H. destruct H as [Hc Hws].
  rewrite Hc. exact (IH Hws).
Qed.

Lemma forallb_rev {A : Type} (f : A -> bool) (l : list A) :
  forallb f (rev l) = forallb f l.
Proof.
  induction l as [|x l IH]; [reflexivity|]. cbn [rev forallb].
  rewrite forallb_app, IH. cbn. rewrite andb_true_r. apply andb_comm.
Qed.

Lemma rstrip_spaces (s ws : pystr) :
  forallb isspace ws = true -> rstrip (s ++ ws) = rstrip s.
Proof.
  intros H. unfold rstrip. rewrite rev_app_distr, lstrip_spaces;
    [reflexivity|]. rewrite forallb_rev. exact H.
Qed.

(** X7. A normalized field name has no white space at either end and no
    non-breaking space anywhere. *)
Theorem normalize_is_clean :
  forall s : pystr, trimmed (normalize s) /\ ~ In nbsp (normalize s).
Proof.
  intros s. unfold normalize. split.
  - apply remove_nbsp_trimmed, strip_trimmed.
  - unfold remove_nbsp. intros H. apply filter_In in H.
    destruct H as [_ H]. rewrite N.eqb_refl in H. discriminate.
Qed.

(** X8. Normalization removes padding and nothing else: a name that is
    already clean comes back unchanged from any white space (ordinary or
    non-breaking) put before and after it. *)
Theorem normalize_removes_padding :
  forall before s after : pystr,
    forallb isspace before = true ->
    forallb isspace after = true ->
    trimmed s ->
    ~ In nbsp s ->
    normalize (before ++ s ++ after) = s.
Proof.
  intros before s after Hb Ha Hs Hn. unfold normalize.
  assert (Hstrip : strip (before ++ s ++ after) = s).
  { unfold strip. rewrite (lstrip_spaces before _ Hb).
    destruct s as [|c s].
    - cbn [app]. rewrite <- (app_nil_r after), (lstrip_spaces after [] Ha).
      reflexivity.
    - destruct Hs as [Hh Hl].
      rewrite (lstrip_fixed ((c :: s) ++ after)).
      + rewrite (rstrip_spaces _ _ Ha). unfold rstrip.
        rewrite (lstrip_fixed _ Hl). apply rev_involutive.
      + intros x Hx. apply Hh. exact Hx. }
  rewrite Hstrip. unfold remove_nbsp. apply forallb_filter_id.
  apply forallb_forall. intros x Hx.
  destruct (N.eqb x nbsp) eqn:E; [|reflexivity].
  apply N.eqb_eq in E. subst x. contradiction.
Qed.

(** ** Reading the "State" of a row *)

Lemma okey_eqb_sym (a b : option pystr) : okey_eqb a b = okey_eqb b a.
Proof. destruct a, b; cbn; auto using pystr_eqb_sym. Qed.

Lemma okey_eqb_trans (a b c : option pystr) :
  okey_eqb a b = true -> okey_eqb b c = true -> okey_eqb a c = true.
Proof.
  destruct a, b, c; cbn; try discriminate; auto.
  apply pystr_eqb_trans.
Qed.

Lemma row_get_set_eq (d : row_dict) (k : option pystr) (v : csv_value) :
  dict_get okey_eqb (dict_set okey_eqb d k v) k = Some v.
Proof.
  apply (dict_get_set_eq okey_eqb okey_eqb_sym okey_eqb_trans).
  destruct k; cbn; auto using pystr_eqb_refl.
Qed.

Lemma row_get_set_neq (d : row_dict) (k k' : option pystr) (v : csv_value) :
  okey_eqb k k' = false ->
  dict_get okey_eqb (dict_set okey_eqb d k v) k' = dict_get okey_eqb d k'.
Proof. apply (dict_get_set_neq okey_eqb okey_eqb_sym okey_eqb_trans). Qed.

Lemma dict_of_zip_other (ks vs : list pystr) (d : row_dict) (k : pystr) :
  ~ In k ks ->
  dict_get okey_eqb (dict_of_zip d ks vs) (Some k)
  = dict_get okey_eqb d (Some k).
Proof.
  revert vs d. induction ks as [|k0 ks IH]; intros vs d Hk; [reflexivity|].
  destruct vs as [|v0 vs]; [reflexivity|]. cbn [dict_of_zip].
  rewrite IH by (intros H; apply Hk; right; exact H).
  apply row_get_set_neq. cbn. apply pystr_eqb_neq.
  intros ->. apply Hk. left. reflexivity.
Qed.

Lemma dict_of_zip_field (ks vs : list pystr) (d : row_dict) (i : nat)
    (k v : pystr) :
  NoDup ks ->
  nth_error ks i = Some k ->
  nth_error vs i = Some v ->
  dict_get okey_eqb (dict_of_zip d ks vs) (Some k) = Some (VStr v).
Proof.
  revert vs d i. induction ks as [|k0 ks IH]; intros vs d i Hnd Hk Hv.
  - destruct i; discriminate.
  - inversion Hnd as [|? ? Hk0 Hnd']; subst.
    destruct vs as [|v0 vs]; [destruct i; discriminate|].
    cbn [dict_of_zip]. destruct i as [|i].
    + injection Hk as ->. injection Hv as ->.
      rewrite (dict_of_zip_other ks vs _ k Hk0). apply row_get_set_eq.
    + exact (IH vs _ i Hnd' Hk Hv).
Qed.

Lemma fill_none_other (ks : list pystr) (d : row_dict) (k : pystr) :
  ~ In k ks ->
  dict_get okey_eqb
    (fold_left (fun d key => dict_set okey_eqb d (Some key) VNone) ks d)
    (Some k)
  = dict_get okey_eqb d (Some k).
Proof.
  revert d. induction ks as [|k0 ks IH]; intros d Hk; [reflexivity|].
  cbn [fold_left]. rewrite IH by (intros H; apply Hk; right; exact H).
  apply row_get_set_neq. cbn. apply pystr_eqb_neq.
  intros ->. apply Hk. left. reflexivity.
Qed.

Lemma pystr_in_dec (k : pystr) (ks : list pystr) : {In k ks} + {~ In k ks}.
Proof. apply in_dec. apply list_eq_dec. apply N.eq_dec. Qed.

Lemma fill_none_member (ks : list pystr) (d : row_dict) (k : pystr) :
  In k ks ->
  dict_get okey_eqb
    (fold_left (fun d key => dict_set okey_eqb d (Some key) VNone) ks d)
    (Some k)
  = Some VNone.
Proof.
  revert d. induction ks as [|k0 ks IH]; intros d Hk; [contradiction|].
  cbn [fold_left]. destruct (pystr_in_dec k ks) as [Hin|Hout].
  - apply IH, Hin.
  - destruct Hk as [->|Hk]; [|contradiction].
    rewrite (fill_none_other ks _ k Hout). apply row_get_set_eq.
Qed.

Lemma nodup_skipn_notin {A : Type} (l : list A) (i n : nat) (x : A) :
  NoDup l -> nth_error l i = Some x -> (i < n)%nat -> ~ In x (skipn n l).
Proof.
  intros Hnd Hi Hlt Hin. apply In_nth_error in Hin. destruct Hin as [j Hj].
  rewrite nth_error_skipn in Hj.
  assert (Hil : (i < List.length l)%nat)
    by (apply nth_error_Some; congruence).
  pose proof (proj1 (NoDup_nth_error l) Hnd i (n + j)%nat Hil) as H.
  rewrite Hi, Hj in H. specialize (H eq_refl). lia.
Qed.

(** X9. When the header repeats no name, the state read from a row is the
    field standing under the "State" header, stripped, whether the row is
    shorter or longer than the header. *)
Theorem row_state_reads_state_column :
  forall (fieldnames row : list pystr) (i : nat) (v : pystr),
    NoDup fieldnames ->
    nth_error fieldnames i = Some (lit "State") ->
    nth_error row i = Some v ->
    row_state (dictreader_row fieldnames row) = Ok (strip v).
Proof.
  intros fieldnames row i v Hnd Hk Hv.
  assert (Hzip : forall d, dict_get okey_eqb (dict_of_zip d fieldnames row)
                             (Some (lit "State")) = Some (VStr v))
    by (intros d; exact (dict_of_zip_field _ _ d i _ _ Hnd Hk Hv)).
  unfold row_state, dictreader_row.
  destruct (List.length fieldnames <? List.length row)%nat eqn:E1.
  - rewrite row_get_set_neq by reflexivity. rewrite Hzip. reflexivity.
  - destruct (List.length row <? List.length fieldnames)%nat eqn:E2.
    + rewrite fill_none_other; [rewrite Hzip; reflexivity|].
      apply (nodup_skipn_notin fieldnames i _ _ Hnd Hk).
      apply nth_error_Some. congruence.
    + rewrite Hzip. reflexivity.
Qed.

Lemma short_row_has_no_state (fieldnames row : list pystr) :
  In (lit "State") (skipn (List.length row) fieldnames) ->
  row_state (dictreader_row fieldnames row) = Raise AttributeError.
Proof.
  intros Hin. unfold row_state, dictreader_row.
  assert (Hlt : (List.length row < List.length fieldnames)%nat).
  { destruct (Nat.lt_ge_cases (List.length row) (List.length fieldnames))
      as [H|H]; [exact H|].
    rewrite skipn_all2 in Hin by exact H. contradiction. }
  assert (E1 : (List.length fieldnames <? List.length row)%nat = false)
    by (apply Nat.ltb_ge; lia).
  assert (E2 : (List.length row <? List.length fieldnames)%nat = true)
    by (apply Nat.ltb_lt; exact Hlt).
  rewrite E1, E2, (fill_none_member _ _ _ Hin). reflexivity.
Qed.

Lemma count_states_fails (fieldnames : list pystr) (rows : csv_rows)
    (row : list pystr) (c : Counter) :
  In row rows ->
  row <> [] ->
  row_state (dictreader_row fieldnames row) = Raise AttributeError ->
  count_states fieldnames rows c = Raise AttributeError.
Proof.
  revert c. induction rows as [|r rows IH]; intros c Hin Hne Hrow;
    [contradiction|].
  destruct (count_states fieldnames (r :: rows) c) as [m|e] eqn:E;
    [|apply count_states_raises in E; subst; reflexivity].
  exfalso. destruct Hin as [->|Hin].
  - destruct row as [|f row]; [congruence|].
    cbn [count_states] in E. rewrite Hrow in E. discriminate.
  - destruct r as [|f r].
    + cbn [count_states] in E. rewrite (IH c Hin Hne Hrow) in E. discriminate.
    + cbn [count_states] in E. unfold bind in E.
      destruct (row_state (dictreader_row fieldnames (f :: r)));
        [|discriminate].
      rewrite (IH _ Hin Hne Hrow) in E. discriminate.
Qed.

(** X10. One record that ends before a "State" column spoils the whole
    run: [get_top_10_states] logs the attribute error and returns nothing,
    whatever the other rows hold. *)
Theorem short_row_discards_everything :
  forall (rows : csv_rows) (fieldnames row : list pystr),
    normalized_fieldnames rows = Ok fieldnames ->
    In row (tl rows) ->
    row <> [] ->
    In (lit "State") (skipn (List.length row) fieldnames) ->
    get_top_10_states (Some rows)
    = ([LogError (ErrorProcessingCSV AttributeError)], []).
Proof.
  intros rows fieldnames row Hf Hin Hne Hshort.
  rewrite (get_top_10_states_paths rows fieldnames Hf).
  assert (Hs : str_in (lit "State") fieldnames = true).
  { unfold str_in. apply existsb_exists. exists (lit "State").
    split; [|apply pystr_eqb_refl].
    rewrite <- (firstn_skipn (List.length row) fieldnames).
    apply in_or_app. right. exact Hshort. }
  rewrite Hs. cbn [negb].
  rewrite (count_states_fails fieldnames (tl rows) row [] Hin Hne
             (short_row_has_no_state _ _ Hshort)).
  reflexivity.
Qed.

(** ** What the counts and percentages are *)

Lemma count_states_row_states (fieldnames : list pystr) (rows : csv_rows)
    (states : list pystr) (c : Counter) :
  row_states fieldnames rows = Ok states ->
  count_states fieldnames rows c
  = Ok (counter_update c (filter nonempty states)).
Proof.
  revert states c. induction rows as [|row rows IH]; intros states c H.
  - injection H as <-. reflexivity.
  - destruct row as [|f row]; [exact (IH states c H)|].
    cbn [row_states count_states] in *. unfold bind in *.
    destruct (row_state (dictreader_row fieldnames (f :: row))) as [state|e];
      [|discriminate].
    destruct (row_states fieldnames rows) as [rest|e]; [|discriminate].
    injection H as <-. rewrite (IH rest _ eq_refl).
    destruct state; reflexivity.
Qed.

Lemma occurrences_nonempty (s : pystr) (states : list pystr) :
  s <> [] -> occurrences s (filter nonempty states) = occurrences s states.
Proof.
  intros Hs. unfold occurrences. rewrite filter_andb. do 2 f_equal.
  apply filter_ext. intros x. destruct (pystr_eqb s x) eqn:E; [|reflexivity].
  apply pystr_eqb_eq in E. subst x. destruct s; [congruence | reflexivity].
Qed.

Lemma occurrences_empty_key (states : list pystr) :
  occurrences [] (filter nonempty states) = 0.
Proof.
  unfold occurrences. rewrite filter_andb.
  rewrite (filter_ext _ (fun _ => false)).
  - induction states; [reflexivity | assumption].
  - intros [|x s]; reflexivity.
Qed.

(** X11. The count [get_top_10_states] reports for a state is the number
    of records whose stripped "State" value is that state, and the empty
    state is never reported. *)
Theorem get_top_10_states_counts_records :
  forall (rows : csv_rows) (fieldnames states : list pystr)
         (state : pystr) (count : Z) (percentage : float64),
    normalized_fieldnames rows = Ok fieldnames ->
    row_states fieldnames (tl rows) = Ok states ->
    In (state, count, percentage) (snd (get_top_10_states (Some rows))) ->
    state <> [] /\ count = occurrences state states.
Proof.
  intros rows fieldnames states state count percentage Hf Hst Hin.
  pose proof (count_states_row_states fieldnames (tl rows) states [] Hst)
    as Hm.
  rewrite (get_top_10_states_paths rows fieldnames Hf), Hm in Hin.
  destruct (negb (str_in (lit "State") fieldnames)); [contradiction|].
  assert (Hin' : In (state, count)
                    (counter_update [] (filter nonempty states))).
  { destruct (counter_update [] (filter nonempty states)) as [|kv m'];
      [contradiction|]. cbn [snd] in Hin.
    apply (in_map fst) in Hin. rewrite map_fst_entry_of in Hin.
    apply most_common_incl in Hin. exact Hin. }
  pose proof (counter_update_nodup (filter nonempty states) []
                (NoDup_nil _)) as Hnd.
  pose proof (counter_update_positive (filter nonempty states) []
                (Forall_nil _)) as Hpos.
  pose proof (in_nodup_dict_get _ _ _ Hnd Hin') as Hget.
  pose proof (counter_getitem_update (filter nonempty states) [] state)
    as Hcount.
  unfold counter_getitem at 1 in Hcount.
  rewrite Hget in Hcount. cbn [counter_getitem dict_get] in Hcount.
  pose proof (dict_get_values pystr_eqb _ _ _ _ Hpos Hget) as Hc.
  cbn beta in Hc.
  assert (Hne : state <> []).
  { intros ->. rewrite occurrences_empty_key in Hcount. lia. }
  split; [exact Hne|]. rewrite <- (occurrences_nonempty state states Hne).
  lia.
Qed.



(** ** The words of the text pipeline *)

Lemma word_runs_chars (U : unicode) (P : N -> Prop) (s cur : pystr) :
  Forall P cur -> Forall P s ->
  Forall (fun r => r <> [] /\ Forall P r) (word_runs U cur s).
Proof.
  revert cur. induction s as [|c s IH]; intros cur Hcur Hs.
  - cbn [word_runs]. destruct cur; cbn [flush]; constructor;
      [split; [discriminate | exact Hcur] | constructor].
  - inversion Hs as [|? ? Hc Hs']; subst. cbn [word_runs].
    destruct (is_word U c).
    + apply IH; [|exact Hs']. apply Forall_app. split; [exact Hcur|].
      constructor; [exact Hc | constructor].
    + apply Forall_app. split; [|apply IH; [constructor | exact Hs']].
      destruct cur; cbn [flush]; constructor;
        [split; [discriminate | exact Hcur] | constructor].
Qed.

Lemma py_lower_no_upper (U : unicode) (s : pystr) :
  lowers U -> Forall (fun x => is_upper x = false) (py_lower U s).
Proof.
  intros HU. unfold py_lower. apply Forall_forall. intros x Hx.
  apply in_flat_map in Hx. destruct Hx as [c [_ Hx]]. unfold lower_char in Hx.
  destruct (c <? 128)%N eqn:E128; [|exact (HU c x Hx)].
  destruct (is_upper c) eqn:Eu.
  - destruct Hx as [<-|[]]. unfold is_upper in *.
    apply andb_true_iff in Eu. destruct Eu as [E1 E2].
    apply N.leb_le in E1, E2. apply andb_false_iff. right.
    apply N.leb_gt. lia.
  - destruct Hx as [<-|[]]. exact Eu.
Qed.

Lemma line_tokens_shape (U : unicode) (line w : pystr) :
  In w (line_tokens U line) ->
  w <> [] /\ forallb is_alpha w = true
  /\ (lowers U -> forallb is_lower w = true).
Proof.
  unfold line_tokens, findall_words. intros Hin. apply filter_In in Hin.
  destruct Hin as [Hin Halpha].
  assert (Hany : Forall (fun _ : N => True) (py_lower U line))
    by (apply Forall_forall; auto).
  pose proof (word_runs_chars U (fun _ => True) (py_lower U line) []
                (Forall_nil _) Hany) as Hne.
  rewrite Forall_forall in Hne.
  split; [apply (Hne w Hin)|].
  split; [exact Halpha|]. intros HU.
  pose proof (word_runs_chars U (fun x => is_upper x = false)
                (py_lower U line) [] (Forall_nil _)
                (py_lower_no_upper U line HU)) as Hlow.
  rewrite Forall_forall in Hlow. destruct (Hlow w Hin) as [_ Hw].
  apply forallb_forall. intros x Hx. rewrite Forall_forall in Hw.
  specialize (Hw x Hx). rewrite forallb_forall in Halpha.
  specialize (Halpha x Hx). unfold is_alpha in Halpha. rewrite Hw in Halpha.
  exact Halpha.
Qed.

Lemma occurrences_positive_in (w : pystr) (tokens : list pystr) :
  0 < occurrences w tokens -> In w tokens.
Proof.
  unfold occurrences. intros H.
  destruct (filter (pystr_eqb w) tokens) as [|x l] eqn:E; [cbn in H; lia|].
  assert (Hx : In x (filter (pystr_eqb w) tokens))
    by (rewrite E; left; reflexivity).
  apply filter_In in Hx. destruct Hx as [Hx Heq].
  apply pystr_eqb_eq in Heq. subst x. exact Hx.
Qed.

(** X14. Every word [count_top_words] returns is a non-empty run of ASCII
    letters, and of lower-case letters as long as lower-casing never
    yields an upper-case ASCII letter. *)
Theorem count_top_words_words_are_letters :
  forall (U : unicode) (file : option (list pystr))
         (top_n skip_lines stop_line : Z) (w : pystr) (c : Z),
    In (w, c) (snd (count_top_words U file top_n skip_lines stop_line)) ->
    w <> [] /\ forallb is_alpha w = true
    /\ (lowers U -> forallb is_lower w = true).
Proof.
  intros U file top_n skip_lines stop_line w c Hin.
  destruct (count_top_words_outcome U file top_n skip_lines stop_line)
    as [[msg Hr]|(lines & _ & _ & Hr)]; rewrite Hr in Hin; [contradiction|].
  cbn [snd] in Hin.
  apply most_common_incl, slice_word_counts_spec in Hin.
  destruct Hin as [Hpos Hc]. rewrite Hc in Hpos.
  apply occurrences_positive_in, in_flat_map in Hpos.
  destruct Hpos as [line [_ Hw]]. exact (line_tokens_shape U line w Hw).
Qed.

Lemma py_slice_lines_in_range {A : Type} (lines : list A)
    (skip_lines stop_line : Z) :
  py_slice lines skip_lines stop_line
  = lines_in_range lines
      (slice_start (Z.of_nat (List.length lines)) skip_lines)
      (slice_start (Z.of_nat (List.length lines)) stop_line).
Proof.
  unfold lines_in_range, py_slice.
  set (len := Z.of_nat (List.length lines)).
  set (a := slice_start len skip_lines).
  set (b := slice_start len stop_line).
  assert (Ha : 0 <= a /\ slice_index len skip_lines = Z.min a len).
  { unfold a, slice_start, slice_index.
    destruct (skip_lines <? 0) eqn:E;
      [apply Z.ltb_lt in E | apply Z.ltb_ge in E]; lia. }
  assert (Hb : slice_index len stop_line = Z.min b len).
  { unfold b, slice_start, slice_index.
    destruct (stop_line <? 0) eqn:E;
      [apply Z.ltb_lt in E | apply Z.ltb_ge in E]; lia. }
  destruct Ha as [Ha0 Ha]. rewrite Ha, Hb.
  assert (Hlen : Z.of_nat (List.length lines) = len) by reflexivity.
  rewrite lines_from_before by lia.
  replace (Z.to_nat (a - 0)) with (Z.to_nat a) by lia.
  destruct (Z.le_gt_cases len a) as [Hge|Hlt].
  - rewrite !skipn_all2 by lia. rewrite !firstn_nil.
    reflexivity.
  - rewrite (Z.min_l a len) by lia.
    assert (Hl : List.length (skipn (Z.to_nat a) lines) = Z.to_nat (len - a))
      by (rewrite length_skipn; unfold len; lia).
    destruct (Z.le_gt_cases b len) as [Hs|Hs].
    + rewrite Z.min_l by lia. reflexivity.
    + rewrite Z.min_r by lia. rewrite !firstn_all2 by lia. reflexivity.
Qed.

(** X15. For any bounds, negative ones included, the count
    [count_top_words] returns for a word is its number of occurrences in
    the lines whose index lies between the two bounds, a negative bound
    standing for that many lines before the end of the file. *)
Theorem count_top_words_counts_slice :
  forall (U : unicode) (lines : list pystr)
         (top_n skip_lines stop_line : Z) (w : pystr) (c : Z),
    In (w, c)
       (snd (count_top_words U (Some lines) top_n skip_lines stop_line)) ->
    c = occurrences w
          (flat_map (line_tokens U)
             (lines_in_range lines
                (slice_start (Z.of_nat (List.length lines)) skip_lines)
                (slice_start (Z.of_nat (List.length lines)) stop_line))).
Proof.
  intros U lines top_n skip_lines stop_line w c Hin.
  destruct (count_top_words_outcome U (Some lines) top_n skip_lines stop_line)
    as [[msg Hr]|(lines' & Hl & _ & Hr)]; rewrite Hr in Hin; [contradiction|].
  injection Hl as <-. cbn [snd] in Hin.
  apply most_common_incl, slice_word_counts_spec in Hin.
  rewrite py_slice_lines_in_range in Hin. apply Hin.
Qed.

Lemma counter_mem_incr (c : Counter) (k w : pystr) :
  dict_mem pystr_eqb (counter_incr c k) w
  = dict_mem pystr_eqb c w || pystr_eqb k w.
Proof.
  unfold dict_mem, counter_incr. destruct (pystr_eqb k w) eqn:E.
  - rewrite (dict_get_set_eq pystr_eqb pystr_eqb_sym pystr_eqb_trans _ _ _ _ E).
    rewrite orb_true_r. reflexivity.
  - rewrite (dict_get_set_neq pystr_eqb pystr_eqb_sym pystr_eqb_trans _ _ _ _ E).
    rewrite orb_false_r. reflexivity.
Qed.

Lemma counter_update_keys (ws : list pystr) (c : Counter) :
  dict_keys (counter_update c ws)
  = dict_keys c
    ++ filter (fun w => negb (dict_mem pystr_eqb c w)) (first_occurrences ws).
Proof.
  unfold counter_update. revert c.
  induction ws as [|k ws IH]; intros c.
  - cbn. rewrite app_nil_r. reflexivity.
  - cbn [fold_left first_occurrences filter]. rewrite IH.
    unfold counter_incr at 1. rewrite dict_keys_set. rewrite filter_andb.
    destruct (dict_mem pystr_eqb c k) eqn:Hm; cbn [negb].
    + f_equal. apply filter_ext. intros w. rewrite counter_mem_incr.
      destruct (pystr_eqb k w) eqn:E.
      * apply pystr_eqb_eq in E. subst w. rewrite Hm. reflexivity.
      * rewrite orb_false_r, andb_true_r. reflexivity.
    + rewrite <- app_assoc. cbn [app]. do 2 f_equal.
      apply filter_ext. intros w.
      rewrite counter_mem_incr, negb_orb. reflexivity.
Qed.

(** X16. The word counts list the words in the order in which they first
    appear in the slice; this is the order the ranking falls back on
    between words of equal count. *)
Theorem word_counts_in_order_of_first_appearance :
  forall (U : unicode) (lines : list pystr) (skip_lines stop_line : Z),
    dict_keys (slice_word_counts U lines skip_lines stop_line)
    = first_occurrences (slice_tokens U lines skip_lines stop_line).
Proof.
  intros U lines skip_lines stop_line.
  unfold slice_word_counts, slice_tokens. rewrite findall_words_join.
  rewrite counter_update_keys. cbn [dict_keys map app dict_mem dict_get negb].
  apply filter_true.
Qed.

(** X17. The states are kept in the order in which the file first names
    them, empty values left out. *)
Theorem state_counts_in_order_of_first_appearance :
  forall (fieldnames : list pystr) (rows : csv_rows)
         (states : list pystr) (m : Counter),
    row_states fieldnames rows = Ok states ->
    count_states fieldnames rows [] = Ok m ->
    dict_keys m = first_occurrences (filter nonempty states).
Proof.
  intros fieldnames rows states m Hst Hm.
  rewrite (count_states_row_states fieldnames rows states [] Hst) in Hm.
  injection Hm as <-. rewrite counter_update_keys.
  cbn [dict_keys map app dict_mem dict_get negb]. apply filter_true.
Qed.

Lemma count_sum_incr (c : Counter) (k : pystr) :
  count_sum (counter_incr c k) = count_sum c + 1.
Proof.
  unfold counter_incr, counter_getitem, count_sum.
  induction c as [|[k0 v0] c IH]; cbn [dict_get dict_set map fold_right snd];
    [lia|].
  destruct (pystr_eqb k0 k); cbn [map fold_right snd]; [lia|].
  rewrite IH. lia.
Qed.

Lemma count_sum_update (ws : list pystr) (c : Counter) :
  count_sum (counter_update c ws) = count_sum c + Z.of_nat (List.length ws).
Proof.
  unfold counter_update. revert c.
  induction ws as [|w ws IH]; intros c; cbn [fold_left List.length]; [lia|].
  rewrite IH, count_sum_incr. lia.
Qed.

(** The ranking [get_top_10_states] returns on a file in which the state
    of every record can be read. *)
Lemma ranking_of_read_states (rows : csv_rows) (fieldnames states : list pystr) :
  normalized_fieldnames rows = Ok fieldnames ->
  str_in (lit "State") fieldnames = true ->
  row_states fieldnames (tl rows) = Ok states ->
  map fst (snd (get_top_10_states (Some rows)))
  = most_common (counter_update [] (filter nonempty states)) 10.
Proof.
  intros Hf Hs Hst.
  exact (ranking_of_get_top_10_states rows fieldnames _ Hf Hs
           (count_states_row_states fieldnames (tl rows) states [] Hst)).
Qed.

(** X1. [get_top_10_states] never returns more than ten entries; on a
    readable file with a "State" column in which the state of every
    record can be read (no record stops short of a "State" column) it
    returns exactly as many entries as there are distinct non-empty
    states, up to ten. *)
Theorem get_top_10_states_size :
  (forall file : option csv_rows,
      (List.length (snd (get_top_10_states file)) <= 10)%nat)
  /\ (forall (rows : csv_rows) (fieldnames states : list pystr),
        normalized_fieldnames rows = Ok fieldnames ->
        str_in (lit "State") fieldnames = true ->
        row_states fieldnames (tl rows) = Ok states ->
        List.length (snd (get_top_10_states (Some rows)))
        = Nat.min 10
            (List.length (first_occurrences (filter nonempty states)))).
Proof.
  split.
  - intros file. destruct (get_top_10_states_outcome file)
      as [[msg ->]|(rows & fn & m & _ & _ & _ & _ & _ & ->)].
    + cbn. lia.
    + cbn [snd]. rewrite length_map, most_common_length. cbn. lia.
  - intros rows fn states Hf Hs Hst.
    transitivity
      (List.length (map fst (snd (get_top_10_states (Some rows)))));
      [symmetry; apply length_map|].
    rewrite (ranking_of_read_states rows fn states Hf Hs Hst).
    rewrite most_common_length.
    rewrite <- (length_map fst (counter_update [] (filter nonempty states))).
    change (map fst (counter_update [] (filter nonempty states)))
      with (dict_keys (counter_update [] (filter nonempty states))).
    rewrite counter_update_keys.
    cbn [dict_keys map app dict_mem dict_get negb]. rewrite filter_true.
    reflexivity.
Qed.

(** X13. On a readable file with a "State" column in which the state of
    every record can be read and at most ten distinct states occur, the
    counts of the returned entries add up to the number of records with a
    non-empty state: no record is left out of the report. *)
Theorem returned_counts_cover_every_record :
  forall (rows : csv_rows) (fieldnames states : list pystr),
    normalized_fieldnames rows = Ok fieldnames ->
    str_in (lit "State") fieldnames = true ->
    row_states fieldnames (tl rows) = Ok states ->
    (List.length (first_occurrences (filter nonempty states)) <= 10)%nat ->
    count_sum (map fst (snd (get_top_10_states (Some rows))))
    = Z.of_nat (List.length (filter nonempty states)).
Proof.
  intros rows fn states Hf Hs Hst Hlen.
  rewrite (ranking_of_read_states rows fn states Hf Hs Hst).
  set (m := counter_update [] (filter nonempty states)).
  assert (Hkeys : List.length m
                  = List.length (first_occurrences (filter nonempty states))).
  { rewrite <- (length_map fst m).
    change (map fst m) with (dict_keys m). unfold m.
    rewrite counter_update_keys.
    cbn [dict_keys map app dict_mem dict_get negb]. rewrite filter_true.
    reflexivity. }
  assert (Hsum : count_sum m = Z.of_nat (List.length (filter nonempty states)))
    by (unfold m; rewrite count_sum_update; reflexivity).
  unfold most_common. cbn [Z.leb Z.compare].
  destruct m as [|kv m'] eqn:Em.
  - cbn [sorted_desc fold_right firstn]. rewrite <- Hsum. reflexivity.
  - rewrite firstn_all2.
    + rewrite <- (count_sum_perm _ _ (sorted_desc_perm (kv :: m'))).
      exact Hsum.
    + rewrite <- (Permutation_length (sorted_desc_perm (kv :: m'))).
      change (Z.to_nat 10) with 10%nat. lia.
Qed.

(** X18. [process_text_file] writes its report even when the text cannot
    be read or has fewer than 128 lines: the report then holds the title
    and header lines only, and the log shows the error followed by the
    line that reports the file as processed. *)
Theorem process_text_file_without_text :
  forall (U : unicode) (file : option (list pystr)),
    (file = None
     \/ exists lines, file = Some lines
                      /\ Z.of_nat (List.length lines) < 128) ->
    run_written (process_text_file U file) = Some (text_report [])
    /\ run_raised (process_text_file U file) = None
    /\ exists msg, run_log (process_text_file U file)
                   = [LogError msg; LogInfo ProcessedText].
Proof.
  intros U file H. unfold process_text_file.
  destruct H as [->|(lines & -> & Hlen)].
  - cbn. repeat split. eexists; reflexivity.
  - unfold count_top_words, count_top_words_try. cbn [open_read bind].
    apply Z.ltb_lt in Hlen. rewrite Hlen.
    cbn. repeat split. eexists; reflexivity.
Qed.

(** ** The mapping of the spreadsheet pipeline *)

(** X19. No office is lost: every rep_office that has a valid row is a
    key of the mapping [find_highest_price_nsn] returns, and the price
    stored for it is not below the price of that row. *)
Theorem every_office_with_a_valid_row_is_kept :
  forall (sh : sheet) (recs : list record) (r : record),
    has_required_columns (first_row sh) = true ->
    sheet_records sh = Ok recs ->
    In r recs ->
    valid_record r = true ->
    exists stored,
      dict_get cell_eqb (snd (find_highest_price_nsn (Some sh))) (rec_office r)
      = Some stored
      /\ py_gt (rec_price r) (snd stored) = false.
Proof.
  intros sh recs r Hcols Hrecs Hin Hvalid.
  rewrite (find_highest_price_nsn_fold sh recs Hcols Hrecs). cbn [snd].
  assert (Hin' : In r (filter valid_record recs))
    by (apply filter_In; split; assumption).
  pose proof (mapping_tracks_records _ (filter_valid_forall recs)
                (rec_office r)) as Ht.
  destruct (dict_get cell_eqb
              (fold_left update_highest (filter valid_record recs) [])
              (rec_office r)) as [stored|].
  - exists stored. split; [reflexivity|].
    destruct Ht as (i & r0 & _ & _ & _ & Hall).
    apply In_nth_error in Hin'. destruct Hin' as [j Hj].
    apply (Hall j r Hj (cell_eqb_refl _)).
  - specialize (Ht r Hin'). rewrite cell_eqb_refl in Ht. discriminate.
Qed.

Lemma fop_snoc {A : Type} (R : A -> A -> Prop) (l : list A) (k : A) :
  ForallOrdPairs R l -> Forall (fun a => R a k) l ->
  ForallOrdPairs R (l ++ [k]).
Proof.
  induction 1 as [|a l Ha Hl IH]; intros Hk; cbn [app].
  - constructor; constructor.
  - inversion Hk as [|? ? Hak Hk']; subst. constructor; [|exact (IH Hk')].
    apply Forall_app. split; [exact Ha | constructor; [exact Hak|constructor]].
Qed.

Lemma absent_key_differs (d : office_dict) (k : cell) :
  dict_get cell_eqb d k = None ->
  Forall (fun a => cell_eqb a k = false) (dict_keys d).
Proof.
  induction d as [|[k0 v0] d IH]; cbn [dict_get dict_keys map]; [constructor|].
  destruct (cell_eqb k0 k) eqn:E; [discriminate|].
  intros H. constructor; [exact E | exact (IH H)].
Qed.

Lemma update_highest_distinct (d : office_dict) (r : record) :
  distinct_offices (dict_keys d) ->
  distinct_offices (dict_keys (update_highest d r)).
Proof.
  intros Hd. rewrite dict_keys_update. unfold dict_mem.
  destruct (dict_get cell_eqb d (rec_office r)) eqn:E; [exact Hd|].
  apply fop_snoc; [exact Hd | exact (absent_key_differs d _ E)].
Qed.

Lemma scan_rows_preserves (P : office_dict -> Prop) (i1 i2 i3 i4 : nat) :
  (forall d r, P d -> P (update_highest d r)) ->
  forall rows d m, P d -> scan_rows i1 i2 i3 i4 rows d = Ok m -> P m.
Proof.
  intros Hstep rows. induction rows as [|row rows IH]; intros d m Hd H.
  - injection H as <-. exact Hd.
  - cbn [scan_rows] in H. unfold bind in H.
    destruct (read_record i1 i2 i3 i4 row) as [r|e]; [|discriminate].
    eapply IH; [|exact H]. destruct (valid_record r); auto.
Qed.

Lemma find_highest_price_nsn_preserves (P : office_dict -> Prop)
    (file : option sheet) :
  P [] ->
  (forall d r, P d -> P (update_highest d r)) ->
  P (snd (find_highest_price_nsn file)).
Proof.
  intros H0 Hstep. unfold find_highest_price_nsn, find_highest_price_nsn_try.
  destruct file as [sh|]; cbn [open_read bind]; [|exact H0].
  destruct (negb (has_required_columns (first_row sh))); [exact H0|].
  destruct (index_of (CStr (lit "NSN")) (first_row sh)) as [i1|];
    cbn [bind]; [|exact H0].
  destruct (index_of (CStr (lit "rep_office")) (first_row sh)) as [i2|];
    cbn [bind]; [|exact H0].
  destruct (index_of (CStr (lit "common_name")) (first_row sh)) as [i3|];
    cbn [bind]; [|exact H0].
  destruct (index_of (CStr (lit "Price")) (first_row sh)) as [i4|];
    cbn [bind]; [|exact H0].
  destruct (scan_rows i1 i2 i3 i4 (data_rows sh) []) as [m|e] eqn:E;
    cbn [bind]; [|exact H0].
  exact (scan_rows_preserves P i1 i2 i3 i4 Hstep _ _ _ H0 E).
Qed.

(** X20. No office is listed twice: the keys of the mapping, and the
    offices of the report, are pairwise different as dictionary keys
    (so 1 and 1.0 count as one office). *)
Theorem offices_are_listed_once :
  (forall file : option sheet,
      distinct_offices (dict_keys (snd (find_highest_price_nsn file))))
  /\ (forall w : excel_world,
        distinct_offices (report_offices (process_excel_file w))).
Proof.
  assert (H : forall file : option sheet,
             distinct_offices (dict_keys (snd (find_highest_price_nsn file)))).
  { intros file.
    apply (find_highest_price_nsn_preserves
             (fun d => distinct_offices (dict_keys d))).
    - constructor.
    - apply update_highest_distinct. }
  split; [exact H|]. intros w. specialize (H (nsn_xlsx w)).
  unfold report_offices. rewrite report_entries_process_excel_file.
  destruct (excel_out_dir w); [|constructor].
  apply written_offices_distinct, H.
Qed.

Lemma filter_perm {A : Type} (f : A -> bool) (l l' : list A) :
  Permutation l l' -> Permutation (filter f l) (filter f l').
Proof.
  induction 1 as [|x l l' _ IH|x y l|l l' l'' _ IH1 _ IH2]; cbn [filter].
  - constructor.
  - destruct (f x); [apply perm_skip|]; exact IH.
  - destruct (f x), (f y); try apply Permutation_refl. apply perm_swap.
  - exact (perm_trans IH1 IH2).
Qed.

Lemma read_all_perm (read : list cell -> result record)
    (rows rows' : list (list cell)) :
  Permutation rows rows' ->
  forall recs, read_all read rows = Ok recs ->
  exists recs', read_all read rows' = Ok recs' /\ Permutation recs recs'.
Proof.
  induction 1 as [|x l l' _ IH|x y l|l l' l'' _ IH1 _ IH2]; intros recs H.
  - exists recs. split; [exact H | apply Permutation_refl].
  - cbn [read_all] in *. unfold bind in *.
    destruct (read x) as [r|e]; [|discriminate].
    destruct (read_all read l) as [rs|e]; [|discriminate].
    injection H as <-. destruct (IH rs eq_refl) as (rs' & -> & Hp).
    exists (r :: rs'). split; [reflexivity | apply perm_skip, Hp].
  - cbn [read_all] in *. unfold bind in *.
    destruct (read y) as [ry|e]; [|discriminate].
    destruct (read x) as [rx|e]; [|discriminate].
    destruct (read_all read l) as [rs|e]; [|discriminate].
    injection H as <-. exists (rx :: ry :: rs).
    split; [reflexivity | apply perm_swap].
  - destruct (IH1 recs H) as (recs' & H' & Hp).
    destruct (IH2 recs' H') as (recs'' & H'' & Hp').
    exists recs''. split; [exact H'' | exact (perm_trans Hp Hp')].
Qed.

Lemma equal_prices (a b : cell) :
  is_number a = true -> is_number b = true ->
  py_gt a b = false -> py_gt b a = false -> cell_eqb a b = true.
Proof.
  unfold is_number. intros Ha Hb Hab Hba.
  destruct (cell_num a) as [x|] eqn:Ex; [|discriminate].
  destruct (cell_num b) as [y|] eqn:Ey; [|discriminate].
  apply (py_gt_false a b x y Ex Ey) in Hab.
  apply (py_gt_false b a y x Ey Ex) in Hba.
  unfold cell_eqb. rewrite Ex, Ey. apply Qeq_bool_iff.
  apply Qle_antisym; assumption.
Qed.

Lemma earliest_highest_perm (recs recs' : list record) (k : cell)
    (stored : cell * cell * cell) :
  Permutation recs recs' ->
  Forall (fun r => valid_record r = true) recs ->
  earliest_highest recs k stored ->
  tracks recs' (fold_left update_highest recs' []) ->
  exists stored',
    dict_get cell_eqb (fold_left update_highest recs' []) k = Some stored'
    /\ cell_eqb (snd stored) (snd stored') = true.
Proof.
  intros Hperm Hvalid (i & r & Hi & Ho & Hp & Hall) Ht. specialize (Ht k).
  assert (Hr : In r recs) by (eapply nth_error_In; exact Hi).
  assert (Hr' : In r recs') by (eapply Permutation_in; eassumption).
  destruct (dict_get cell_eqb (fold_left update_highest recs' []) k)
    as [stored'|].
  - exists stored'. split; [reflexivity|].
    destruct Ht as (i' & r' & Hi' & Ho' & Hp' & Hall').
    assert (Hq : In r' recs).
    { eapply Permutation_in; [apply Permutation_sym; exact Hperm|].
      eapply nth_error_In; exact Hi'. }
    apply In_nth_error in Hq. destruct Hq as [j Hj].
    apply In_nth_error in Hr'. destruct Hr' as [j' Hj'].
    destruct (Hall j r' Hj Ho') as [H1 _].
    destruct (Hall' j' r Hj' Ho) as [H2 _].
    rewrite Forall_forall in Hvalid.
    rewrite <- Hp, <- Hp', !rec_payload_price in *.
    apply equal_prices; try assumption; apply valid_record_price, Hvalid.
    + exact Hr.
    + eapply nth_error_In; exact Hj.
  - rewrite (Ht r Hr') in Ho. discriminate.
Qed.

(** X21. Reordering the rows of a sheet does not change the highest price
    found for any office: the reordered sheet holds the office too, with
    a price equal in value (which of several rows of that price is kept
    may differ). *)
Theorem highest_price_ignores_row_order :
  forall (sh sh' : sheet) (recs : list record) (k : cell)
         (stored : cell * cell * cell),
    first_row sh' = first_row sh ->
    Permutation (data_rows sh) (data_rows sh') ->
    has_required_columns (first_row sh) = true ->
    sheet_records sh = Ok recs ->
    dict_get cell_eqb (snd (find_highest_price_nsn (Some sh))) k
      = Some stored ->
    exists stored',
      dict_get cell_eqb (snd (find_highest_price_nsn (Some sh'))) k
      = Some stored'
      /\ cell_eqb (snd stored) (snd stored') = true.
Proof.
  intros sh sh' recs k stored Hhead Hperm Hcols Hrecs Hget.
  assert (Hrecs' : exists recs', sheet_records sh' = Ok recs'
                                 /\ Permutation recs recs').
  { unfold sheet_records in *. rewrite Hhead.
    destruct (index_of (CStr (lit "NSN")) (first_row sh)) as [i1|];
      [|discriminate]; cbn [bind] in *.
    destruct (index_of (CStr (lit "rep_office")) (first_row sh)) as [i2|];
      [|discriminate]; cbn [bind] in *.
    destruct (index_of (CStr (lit "common_name")) (first_row sh)) as [i3|];
      [|discriminate]; cbn [bind] in *.
    destruct (index_of (CStr (lit "Price")) (first_row sh)) as [i4|];
      [|discriminate]; cbn [bind] in *.
    exact (read_all_perm _ _ _ Hperm recs Hrecs). }
  destruct Hrecs' as (recs' & Hrecs' & Hp).
  rewrite <- Hhead in Hcols.
  rewrite (find_highest_price_nsn_fold sh' recs' Hcols Hrecs'). cbn [snd].
  rewrite Hhead in Hcols.
  rewrite (find_highest_price_nsn_fold sh recs Hcols Hrecs) in Hget.
  cbn [snd] in Hget.
  pose proof (mapping_tracks_records _ (filter_valid_forall recs) k) as Ht.
  rewrite Hget in Ht.
  exact (earliest_highest_perm _ _ k stored (filter_perm valid_record _ _ Hp)
           (filter_valid_forall recs) Ht
           (mapping_tracks_records _ (filter_valid_forall recs'))).
Qed.

(** X22. Rows that fail the validity test are passed over in silence:
    two sheets with the same header whose valid rows agree give the same
    mapping, and nothing is logged. *)
Theorem invalid_rows_are_skipped :
  forall (sh sh' : sheet) (recs recs' : list record),
    first_row sh' = first_row sh ->
    has_required_columns (first_row sh) = true ->
    sheet_records sh = Ok recs ->
    sheet_records sh' = Ok recs' ->
    filter valid_record recs = filter valid_record recs' ->
    find_highest_price_nsn (Some sh) = find_highest_price_nsn (Some sh')
    /\ fst (find_highest_price_nsn (Some sh)) = [].
Proof.
  intros sh sh' recs recs' Hhead Hcols Hrecs Hrecs' Hsame.
  rewrite (find_highest_price_nsn_fold sh recs Hcols Hrecs).
  rewrite <- Hhead in Hcols.
  rewrite (find_highest_price_nsn_fold sh' recs' Hcols Hrecs'), Hsame.
  split; reflexivity.
Qed.



(** *** Lines that cannot be written *)

Lemma format_field_truthy (c : cell) :
  truthy c = true ->
  match format_field c with
  | Ok _ => is_duration c = false
  | Raise e => is_duration c = true /\ e = TypeError
  end.
Proof. destruct c; cbn; auto; discriminate. Qed.

Lemma format_price_number (price : cell) :
  is_number price = true ->
  match format_price price with
  | Ok _ => price_fits price = true
  | Raise e => price_fits price = false /\ e = OverflowError
  end.
Proof.
  destruct price; try (cbn; auto; discriminate). intros _.
  unfold format_price, price_fits. rewrite Z.leb_antisym.
  destruct (Z.abs z <? float_overflow_bound); cbn [negb]; auto.
Qed.

(** X28. Of the rows that pass the validity test, exactly those can be
    written as a line of the report that hold no duration in rep_office,
    NSN and common_name and whose price, if an integer, fits a float; a
    duration raises [TypeError], and otherwise too large a price raises
    [OverflowError]. *)
Theorem valid_record_formatting :
  forall r : record,
    valid_record r = true ->
    match format_entry (rec_office r, rec_payload r) with
    | Ok _ => has_duration r = false /\ price_fits (rec_price r) = true
    | Raise e =>
        (has_duration r = true /\ e = TypeError)
        \/ (has_duration r = false /\ price_fits (rec_price r) = false
            /\ e = OverflowError)
    end.
Proof.
  intros [[[o n] c] p]. unfold valid_record. rewrite !andb_true_iff.
  intros [[[Ho Hn] Hc] Hp].
  cbn [rec_office rec_payload rec_price fst snd format_entry has_duration].
  pose proof (format_field_truthy o Ho) as Fo.
  pose proof (format_field_truthy n Hn) as Fn.
  pose proof (format_field_truthy c Hc) as Fc.
  pose proof (format_price_number p Hp) as Fp.
  destruct (format_field o) as [to|eo]; cbn [bind].
  - rewrite Fo. destruct (format_field n) as [tn|en]; cbn [bind].
    + rewrite Fn. destruct (format_field c) as [tc|ec]; cbn [bind].
      * rewrite Fc. destruct (format_price p) as [tp|ep]; cbn [bind orb].
        -- split; [reflexivity | exact Fp].
        -- right. destruct Fp as [Fp ->]. auto.
      * destruct Fc as [-> ->]. left. split; reflexivity.
    + destruct Fn as [-> ->]. left. split; reflexivity.
  - destruct Fo as [-> ->]. left. split; reflexivity.
Qed.



(** ** Fetching the workbook *)

Lemma endswith_app (s suffix : pystr) : endswith (s ++ suffix) suffix = true.
Proof.
  unfold endswith. rewrite length_app.
  replace (List.length s + List.length suffix - List.length suffix)%nat
    with (List.length s + 0)%nat by lia.
  rewrite skipn_app, skipn_all2 by lia.
  replace (List.length s + 0 - List.length s)%nat with O by lia.
  apply pystr_eqb_refl.
Qed.

Lemma xlsx_name_ends (filename : pystr) :
  endswith (xlsx_name filename) (lit ".xlsx") = true.
Proof.
  unfold xlsx_name. destruct (endswith filename (lit ".xlsx")) eqn:E;
    [exact E | apply endswith_app].
Qed.

(** X24. Whatever [fetch_excel_file] writes is the body of the response
    to the given URL, saved at the path that joins the given folder with
    a name that ends in ".xlsx": the given name itself when it ends so
    already, the name with ".xlsx" appended otherwise. *)
Theorem fetch_excel_file_writes_the_response :
  forall (env : fetch_env) (folder_name filename url : pystr)
         (p : file_path) (data : list N),
    In (p, data) (fetch_files (fetch_excel_file env folder_name filename url)) ->
    http_get env url = HttpOk data
    /\ write_file env p = Written
    /\ exists name : pystr,
         p = joinpath env folder_name name
         /\ endswith name (lit ".xlsx") = true
         /\ (name = filename \/ name = filename ++ lit ".xlsx")
         /\ (endswith filename (lit ".xlsx") = true -> name = filename).
Proof.
  intros env folder_name filename url p data Hin.
  unfold fetch_excel_file in Hin. destruct url as [|c url]; [contradiction|].
  destruct (http_get env (c :: url)) as [content| | |e]; try contradiction.
  unfold write_excel_file in Hin.
  destruct (write_file env (joinpath env folder_name (xlsx_name filename)))
    as [| |e] eqn:Hw; cbn [fetch_raised fetch_files] in Hin;
    try contradiction.
  destruct Hin as [Hin|[]]. injection Hin as <- <-.
  split; [reflexivity|]. split; [exact Hw|].
  exists (xlsx_name filename). split; [reflexivity|].
  split; [apply xlsx_name_ends|]. unfold xlsx_name.
  destruct (endswith filename (lit ".xlsx")); split; auto; discriminate.
Qed.


(** X26. When the request succeeds but the file cannot be written,
    [fetch_excel_file] logs the write error and then still logs that the
    file was fetched and saved, although nothing was written. *)
Theorem fetch_excel_file_reports_success_after_failed_write :
  forall (env : fetch_env) (folder_name filename url : pystr)
         (content : list N),
    url <> [] ->
    http_get env url = HttpOk content ->
    write_file env (joinpath env folder_name (xlsx_name filename))
    = WriteIOError ->
    fetch_excel_file env folder_name filename url
    = {| fetch_logs :=
           [ FetchInfo (FetchingFrom url);
             FetchInfo (WritingTo
                          (joinpath env folder_name (xlsx_name filename)));
             FetchError (ErrorWriting
                           (joinpath env folder_name (xlsx_name filename)));
             FetchInfo (FetchedAs (xlsx_name filename)) ];
         fetch_files := [];
         fetch_raised := None |}.
Proof.
  intros env folder_name filename url content Hurl Hget Hw.
  unfold fetch_excel_file. destruct url as [|c url]; [congruence|].
  rewrite Hget. unfold write_excel_file. rewrite Hw. reflexivity.
Qed.

(** X27. An exception of the write that is not an [IOError], such as the
    [ValueError] of a file name with a NUL character, escapes
    [write_excel_file] and [fetch_excel_file]: nothing is written, no
    error is logged, and neither success line is logged. *)
Theorem fetch_excel_file_lets_other_exceptions_escape :
  forall (env : fetch_env) (folder_name filename url : pystr)
         (content : list N) (e : exn),
    url <> [] ->
    http_get env url = HttpOk content ->
    write_file env (joinpath env folder_name (xlsx_name filename))
    = WriteRaised e ->
    fetch_excel_file env folder_name filename url
    = {| fetch_logs :=
           [ FetchInfo (FetchingFrom url);
             FetchInfo (WritingTo
                          (joinpath env folder_name (xlsx_name filename))) ];
         fetch_files := [];
         fetch_raised := Some e |}.
Proof.
  intros env folder_name filename url content e Hurl Hget Hw.
  unfold fetch_excel_file. destruct url as [|c url]; [congruence|].
  rewrite Hget. unfold write_excel_file. rewrite Hw. reflexivity.
Qed.

(** ** The further properties on the sample inputs *)

(** Rows TX, TX, CA give two entries. *)
Lemma get_top_10_states_size_witness :
  normalized_fieldnames scenario_a_rows = Ok [lit "State"]
  /\ str_in (lit "State") [lit "State"] = true
  /\ row_states [lit "State"] (tl scenario_a_rows)
     = Ok [lit "TX"; lit "TX"; lit "CA"]
  /\ List.length (snd (get_top_10_states (Some scenario_a_rows)))
     = Nat.min 10
         (List.length
            (first_occurrences
               (filter nonempty [lit "TX"; lit "TX"; lit "CA"]))).
Proof.
  split; [reflexivity|]. split; [reflexivity|]. split; [reflexivity|].
  exact (proj2 get_top_10_states_size scenario_a_rows [lit "State"]
           [lit "TX"; lit "TX"; lit "CA"] eq_refl eq_refl eq_refl).
Defined.

(** Rows TX, TX, CA are ranked without a log line. *)
Lemma get_top_10_states_error_or_entries_witness :
  (fst (get_top_10_states (Some scenario_a_rows)) = []
   /\ snd (get_top_10_states (Some scenario_a_rows)) <> [])
  \/ (exists msg,
         fst (get_top_10_states (Some scenario_a_rows)) = [LogError msg]
         /\ snd (get_top_10_states (Some scenario_a_rows)) = []).
Proof.
  exact (get_top_10_states_error_or_entries (Some scenario_a_rows)).
Defined.

(** The two lines hold three distinct words. *)
Lemma count_top_words_size_witness :
  0 <= Z.of_nat (List.length two_lines)
  /\ List.length (snd (count_top_words ascii_unicode (Some two_lines) 50 0 666))
     = Nat.min (Z.to_nat 50)
               (List.length (slice_word_counts ascii_unicode two_lines 0 666)).
Proof.
  split; [lia|].
  exact (count_top_words_size ascii_unicode two_lines 50 0 666 ltac:(lia)).
Defined.

Lemma count_top_words_returns_all_witness :
  0 <= Z.of_nat (List.length two_lines)
  /\ Z.of_nat (List.length (slice_word_counts ascii_unicode two_lines 0 666))
     <= 50
  /\ Permutation (slice_word_counts ascii_unicode two_lines 0 666)
       (snd (count_top_words ascii_unicode (Some two_lines) 50 0 666)).
Proof.
  assert (H : Z.of_nat (List.length
                          (slice_word_counts ascii_unicode two_lines 0 666))
              <= 50) by (apply Z.leb_le; reflexivity).
  split; [lia|]. split; [exact H|].
  exact (count_top_words_returns_all ascii_unicode two_lines 50 0 666
           ltac:(lia) H).
Defined.

(** A header cell padded with a space and non-breaking spaces. *)
Lemma normalize_is_clean_witness :
  trimmed (normalize (32 :: nbsp :: lit "Sta" ++ nbsp :: lit "te ")%N)
  /\ ~ In nbsp (normalize (32 :: nbsp :: lit "Sta" ++ nbsp :: lit "te ")%N).
Proof.
  exact (normalize_is_clean (32 :: nbsp :: lit "Sta" ++ nbsp :: lit "te ")%N).
Defined.

Lemma normalize_removes_padding_witness :
  forallb isspace [32; nbsp]%N = true
  /\ forallb isspace [32]%N = true
  /\ trimmed (lit "State")
  /\ ~ In nbsp (lit "State")
  /\ normalize ([32; nbsp]%N ++ lit "State" ++ [32]%N) = lit "State".
Proof.
  assert (Ht : trimmed (lit "State"))
    by (split; intros c H; vm_compute in H; injection H as <-; reflexivity).
  assert (Hn : ~ In nbsp (lit "State"))
    by (intros H; vm_compute in H; intuition discriminate).
  split; [reflexivity|]. split; [reflexivity|].
  split; [exact Ht|]. split; [exact Hn|].
  exact (normalize_removes_padding [32; nbsp]%N (lit "State") [32]%N
           eq_refl eq_refl Ht Hn).
Defined.

(** The state of a row under the header Bank, City, State. *)
Lemma row_state_reads_state_column_witness :
  NoDup bank_header
  /\ nth_error bank_header 2 = Some (lit "State")
  /\ nth_error bank_row 2 = Some (lit " TX ")
  /\ row_state (dictreader_row bank_header bank_row) = Ok (strip (lit " TX ")).
Proof.
  assert (Hnd : NoDup bank_header).
  { unfold bank_header.
    repeat (constructor; [vm_compute; intuition discriminate|]).
    constructor. }
  split; [exact Hnd|]. split; [reflexivity|]. split; [reflexivity|].
  exact (row_state_reads_state_column bank_header bank_row 2 (lit " TX ")
           Hnd eq_refl eq_refl).
Defined.

(** A file whose second record holds the bank name only. *)
Lemma short_row_discards_everything_witness :
  normalized_fieldnames short_row_rows = Ok bank_header
  /\ In [lit "Second"] (tl short_row_rows)
  /\ [lit "Second"] <> []
  /\ In (lit "State") (skipn (List.length [lit "Second"]) bank_header)
  /\ get_top_10_states (Some short_row_rows)
     = ([LogError (ErrorProcessingCSV AttributeError)], []).
Proof.
  assert (H1 : In [lit "Second"] (tl short_row_rows))
    by (right; left; reflexivity).
  assert (H2 : [lit "Second"] <> []) by discriminate.
  assert (H3 : In (lit "State")
                  (skipn (List.length [lit "Second"]) bank_header))
    by (right; left; reflexivity).
  split; [reflexivity|]. split; [exact H1|]. split; [exact H2|].
  split; [exact H3|].
  exact (short_row_discards_everything short_row_rows bank_header
           [lit "Second"] eq_refl H1 H2 H3).
Defined.

(** Rows TX, TX, CA: TX is counted twice. *)
Lemma get_top_10_states_counts_records_witness :
  normalized_fieldnames scenario_a_rows = Ok [lit "State"]
  /\ row_states [lit "State"] (tl scenario_a_rows)
     = Ok [lit "TX"; lit "TX"; lit "CA"]
  /\ In (lit "TX", 2, float_percentage 2 3)
        (snd (get_top_10_states (Some scenario_a_rows)))
  /\ lit "TX" <> []
  /\ 2 = occurrences (lit "TX") [lit "TX"; lit "TX"; lit "CA"].
Proof.
  split; [reflexivity|]. split; [reflexivity|]. split; [left; reflexivity|].
  exact (get_top_10_states_counts_records scenario_a_rows [lit "State"]
           [lit "TX"; lit "TX"; lit "CA"] (lit "TX") 2 (float_percentage 2 3)
           eq_refl eq_refl (or_introl eq_refl)).
Defined.


(** Rows TX, TX, CA: the two returned counts add up to three records. *)
Lemma returned_counts_cover_every_record_witness :
  normalized_fieldnames scenario_a_rows = Ok [lit "State"]
  /\ str_in (lit "State") [lit "State"] = true
  /\ row_states [lit "State"] (tl scenario_a_rows)
     = Ok [lit "TX"; lit "TX"; lit "CA"]
  /\ (List.length
        (first_occurrences (filter nonempty [lit "TX"; lit "TX"; lit "CA"]))
      <= 10)%nat
  /\ count_sum (map fst (snd (get_top_10_states (Some scenario_a_rows))))
     = Z.of_nat (List.length (filter nonempty [lit "TX"; lit "TX"; lit "CA"])).
Proof.
  assert (Hlen : (List.length
                    (first_occurrences
                       (filter nonempty [lit "TX"; lit "TX"; lit "CA"]))
                  <= 10)%nat) by (apply Nat.leb_le; reflexivity).
  split; [reflexivity|]. split; [reflexivity|]. split; [reflexivity|].
  split; [exact Hlen|].
  exact (returned_counts_cover_every_record scenario_a_rows [lit "State"]
           [lit "TX"; lit "TX"; lit "CA"] eq_refl eq_refl eq_refl Hlen).
Defined.

Lemma count_top_words_words_are_letters_witness :
  In (lit "alpha", 1)
     (snd (count_top_words ascii_unicode (Some two_lines) 50 0 666))
  /\ lit "alpha" <> []
  /\ forallb is_alpha (lit "alpha") = true
  /\ (lowers ascii_unicode -> forallb is_lower (lit "alpha") = true).
Proof.
  split; [left; reflexivity|].
  exact (count_top_words_words_are_letters ascii_unicode (Some two_lines)
           50 0 666 (lit "alpha") 1 (or_introl eq_refl)).
Defined.

(** With [stop_line = -1] the last of the two lines is left out. *)
Lemma count_top_words_counts_slice_witness :
  In (lit "alpha", 1)
     (snd (count_top_words ascii_unicode (Some two_lines) 50 0 (-1)))
  /\ 1 = occurrences (lit "alpha")
           (flat_map (line_tokens ascii_unicode)
              (lines_in_range two_lines
                 (slice_start (Z.of_nat (List.length two_lines)) 0)
                 (slice_start (Z.of_nat (List.length two_lines)) (-1)))).
Proof.
  split; [left; reflexivity|].
  exact (count_top_words_counts_slice ascii_unicode two_lines 50 0 (-1)
           (lit "alpha") 1 (or_introl eq_refl)).
Defined.

Lemma state_counts_in_order_of_first_appearance_witness :
  row_states [lit "State"] (tl scenario_a_rows)
  = Ok [lit "TX"; lit "TX"; lit "CA"]
  /\ count_states [lit "State"] (tl scenario_a_rows) [] = Ok scenario_a_counts
  /\ dict_keys scenario_a_counts
     = first_occurrences (filter nonempty [lit "TX"; lit "TX"; lit "CA"]).
Proof.
  split; [reflexivity|]. split; [reflexivity|].
  exact (state_counts_in_order_of_first_appearance [lit "State"]
           (tl scenario_a_rows) [lit "TX"; lit "TX"; lit "CA"]
           scenario_a_counts eq_refl eq_refl).
Defined.

(** A text of two lines is too short for the default range. *)
Lemma process_text_file_without_text_witness :
  (Some two_lines = None
   \/ exists lines, Some two_lines = Some lines
                    /\ Z.of_nat (List.length lines) < 128)
  /\ run_written (process_text_file ascii_unicode (Some two_lines))
     = Some (text_report [])
  /\ run_raised (process_text_file ascii_unicode (Some two_lines)) = None
  /\ exists msg, run_log (process_text_file ascii_unicode (Some two_lines))
                 = [LogError msg; LogInfo ProcessedText].
Proof.
  assert (H : Some two_lines = None
              \/ exists lines, Some two_lines = Some lines
                               /\ Z.of_nat (List.length lines) < 128)
    by (right; exists two_lines; split; reflexivity).
  split; [exact H|].
  exact (process_text_file_without_text ascii_unicode (Some two_lines) H).
Defined.

(** Office A keeps a price not below 10, the price of its first row. *)
Lemma every_office_with_a_valid_row_is_kept_witness :
  has_required_columns (first_row scenario_b_sheet) = true
  /\ sheet_records scenario_b_sheet = Ok scenario_b_records
  /\ In (CStr (lit "A"), CStr (lit "n1"), CStr (lit "bolt"), CInt 10)
        scenario_b_records
  /\ valid_record (CStr (lit "A"), CStr (lit "n1"), CStr (lit "bolt"), CInt 10)
     = true
  /\ exists stored,
      dict_get cell_eqb (snd (find_highest_price_nsn (Some scenario_b_sheet)))
               (rec_office (CStr (lit "A"), CStr (lit "n1"),
                            CStr (lit "bolt"), CInt 10))
      = Some stored
      /\ py_gt (rec_price (CStr (lit "A"), CStr (lit "n1"),
                           CStr (lit "bolt"), CInt 10))
               (snd stored) = false.
Proof.
  split; [reflexivity|]. split; [reflexivity|]. split; [left; reflexivity|].
  split; [reflexivity|].
  exact (every_office_with_a_valid_row_is_kept scenario_b_sheet
           scenario_b_records
           (CStr (lit "A"), CStr (lit "n1"), CStr (lit "bolt"), CInt 10)
           eq_refl eq_refl (or_introl eq_refl) eq_refl).
Defined.

(** The first two rows of scenario B exchanged: office A keeps price 25. *)
Lemma highest_price_ignores_row_order_witness :
  first_row scenario_b_sheet_reordered = first_row scenario_b_sheet
  /\ Permutation (data_rows scenario_b_sheet)
                 (data_rows scenario_b_sheet_reordered)
  /\ has_required_columns (first_row scenario_b_sheet) = true
  /\ sheet_records scenario_b_sheet = Ok scenario_b_records
  /\ dict_get cell_eqb (snd (find_highest_price_nsn (Some scenario_b_sheet)))
              (CStr (lit "A"))
     = Some (CStr (lit "n2"), CStr (lit "nut"), CInt 25)
  /\ exists stored',
      dict_get cell_eqb
        (snd (find_highest_price_nsn (Some scenario_b_sheet_reordered)))
        (CStr (lit "A"))
      = Some stored'
      /\ cell_eqb (snd (CStr (lit "n2"), CStr (lit "nut"), CInt 25))
                  (snd stored') = true.
Proof.
  assert (Hp : Permutation (data_rows scenario_b_sheet)
                           (data_rows scenario_b_sheet_reordered))
    by apply perm_swap.
  split; [reflexivity|]. split; [exact Hp|]. split; [reflexivity|].
  split; [reflexivity|]. split; [reflexivity|].
  exact (highest_price_ignores_row_order scenario_b_sheet
           scenario_b_sheet_reordered scenario_b_records (CStr (lit "A"))
           (CStr (lit "n2"), CStr (lit "nut"), CInt 25)
           eq_refl Hp eq_refl eq_refl eq_refl).
Defined.

(** Scenario B with two rows that fail the validity test. *)
Lemma invalid_rows_are_skipped_witness :
  first_row scenario_b_sheet_with_blanks = first_row scenario_b_sheet
  /\ has_required_columns (first_row scenario_b_sheet) = true
  /\ sheet_records scenario_b_sheet = Ok scenario_b_records
  /\ sheet_records scenario_b_sheet_with_blanks
     = Ok [ (CStr (lit "A"), CStr (lit "n1"), CStr (lit "bolt"), CInt 10);
            (CNone, CStr (lit "n9"), CStr (lit "pin"), CInt 99);
            (CStr (lit "A"), CStr (lit "n2"), CStr (lit "nut"), CInt 25);
            (CStr (lit "B"), CStr (lit "n8"), CStr (lit "cog"),
             CStr (lit "n/a"));
            (CStr (lit "B"), CStr (lit "n3"), CStr (lit "gear"), CInt 5) ]
  /\ find_highest_price_nsn (Some scenario_b_sheet)
     = find_highest_price_nsn (Some scenario_b_sheet_with_blanks)
  /\ fst (find_highest_price_nsn (Some scenario_b_sheet)) = [].
Proof.
  split; [reflexivity|]. split; [reflexivity|]. split; [reflexivity|].
  split; [reflexivity|].
  exact (invalid_rows_are_skipped scenario_b_sheet
           scenario_b_sheet_with_blanks scenario_b_records _
           eq_refl eq_refl eq_refl eq_refl eq_refl).
Defined.


(** A name without extension is saved as "nsn.xlsx". *)
Lemma fetch_excel_file_writes_the_response_witness :
  In (lit "data/nsn.xlsx", [80; 75; 3]%N)
     (fetch_files (fetch_excel_file working_env (lit "data") (lit "nsn")
                                    (lit "https://example.com/nsn")))
  /\ http_get working_env (lit "https://example.com/nsn")
     = HttpOk [80; 75; 3]%N
  /\ write_file working_env (lit "data/nsn.xlsx") = Written
  /\ exists name : pystr,
       lit "data/nsn.xlsx" = joinpath working_env (lit "data") name
       /\ endswith name (lit ".xlsx") = true
       /\ (name = lit "nsn" \/ name = lit "nsn" ++ lit ".xlsx")
       /\ (endswith (lit "nsn") (lit ".xlsx") = true -> name = lit "nsn").
Proof.
  split; [left; reflexivity|].
  exact (fetch_excel_file_writes_the_response working_env (lit "data")
           (lit "nsn") (lit "https://example.com/nsn")
           (lit "data/nsn.xlsx") [80; 75; 3]%N (or_introl eq_refl)).
Defined.


(** A disk that refuses the write. *)
Lemma fetch_excel_file_reports_success_after_failed_write_witness :
  lit "https://example.com/nsn" <> []
  /\ http_get full_disk_env (lit "https://example.com/nsn")
     = HttpOk [80; 75; 3]%N
  /\ write_file full_disk_env
       (joinpath full_disk_env (lit "data") (xlsx_name (lit "nsn")))
     = WriteIOError
  /\ fetch_excel_file full_disk_env (lit "data") (lit "nsn")
                      (lit "https://example.com/nsn")
     = {| fetch_logs :=
            [ FetchInfo (FetchingFrom (lit "https://example.com/nsn"));
              FetchInfo (WritingTo (lit "data/nsn.xlsx"));
              FetchError (ErrorWriting (lit "data/nsn.xlsx"));
              FetchInfo (FetchedAs (lit "nsn.xlsx")) ];
          fetch_files := [];
          fetch_raised := None |}.
Proof.
  assert (H : lit "https://example.com/nsn" <> []) by discriminate.
  split; [exact H|]. split; [reflexivity|]. split; [reflexivity|].
  exact (fetch_excel_file_reports_success_after_failed_write full_disk_env
           (lit "data") (lit "nsn") (lit "https://example.com/nsn")
           [80; 75; 3]%N H eq_refl eq_refl).
Defined.

(** A name that [open] rejects. *)
Lemma fetch_excel_file_lets_other_exceptions_escape_witness :
  lit "https://example.com/nsn" <> []
  /\ http_get bad_name_env (lit "https://example.com/nsn")
     = HttpOk [80; 75; 3]%N
  /\ write_file bad_name_env
       (joinpath bad_name_env (lit "data") (xlsx_name (lit "nsn")))
     = WriteRaised ValueError
  /\ fetch_excel_file bad_name_env (lit "data") (lit "nsn")
                      (lit "https://example.com/nsn")
     = {| fetch_logs :=
            [ FetchInfo (FetchingFrom (lit "https://example.com/nsn"));
              FetchInfo (WritingTo (lit "data/nsn.xlsx")) ];
          fetch_files := [];
          fetch_raised := Some ValueError |}.
Proof.
  assert (H : lit "https://example.com/nsn" <> []) by discriminate.
  split; [exact H|]. split; [reflexivity|]. split; [reflexivity|].
  exact (fetch_excel_file_lets_other_exceptions_escape bad_name_env
           (lit "data") (lit "nsn") (lit "https://example.com/nsn")
           [80; 75; 3]%N ValueError H eq_refl eq_refl).
Defined.

(** A duration in the NSN cell of a valid row. *)
Lemma valid_record_formatting_witness :
  valid_record (CStr (lit "B"), CDuration 3600, CStr (lit "gear"), CInt 5)
  = true
  /\ format_entry (CStr (lit "B"), (CDuration 3600, CStr (lit "gear"), CInt 5))
     = Raise TypeError
  /\ match format_entry
             (CStr (lit "B"), (CDuration 3600, CStr (lit "gear"), CInt 5)) with
     | Ok _ =>
         has_duration (CStr (lit "B"), CDuration 3600, CStr (lit "gear"), CInt 5)
         = false
         /\ price_fits (CInt 5) = true
     | Raise e =>
         (has_duration
            (CStr (lit "B"), CDuration 3600, CStr (lit "gear"), CInt 5) = true
          /\ e = TypeError)
         \/ (has_duration
               (CStr (lit "B"), CDuration 3600, CStr (lit "gear"), CInt 5)
             = false
             /\ price_fits (CInt 5) = false
             /\ e = OverflowError)
     end.
Proof.
  split; [reflexivity|]. split; [reflexivity|].
  exact (valid_record_formatting
           (CStr (lit "B"), CDuration 3600, CStr (lit "gear"), CInt 5)
           eq_refl).
Defined.

